(** * Verification of the reconciliation engine of netbox-webhook-dnsupdate

    Shallow embedding of [src/nb_dns_updater.py]: the zone registry and
    update batch of [UpdateMapper], and the reconciliation entry points
    [DNSWebHook.update_dns] and [DNSWebHook.delete_dns].  The dnspython
    functions the code relies on ([dns.name.from_text], [Name.parent],
    [Name.is_subdomain], [Name.relativize], [Name.to_text],
    [dns.reversename.from_address]) are embedded as the library defines
    them, on ASCII text. *)

From Stdlib Require Import List String Ascii Bool Arith ZArith Lia.
From Stdlib Require Import FunctionalExtensionality.
From Stdlib Require PrimFloat.
Import ListNotations.
Open Scope string_scope.
Open Scope list_scope.
Open Scope nat_scope.

(** ** Text helpers *)

(** Python's [str.split(sep)] on a one-character separator. *)
Fixpoint split_on (sep : ascii) (s : string) : list string :=
  match s with
  | EmptyString => [EmptyString]
  | String c rest =>
      if Ascii.eqb c sep then EmptyString :: split_on sep rest
      else match split_on sep rest with
           | w :: ws => String c w :: ws
           | [] => [String c EmptyString]
           end
  end.

(** [sep.join(l)] *)
Fixpoint join (sep : string) (l : list string) : string :=
  match l with
  | [] => EmptyString
  | [x] => x
  | x :: xs => (x ++ sep ++ join sep xs)%string
  end.

Definition is_digit (c : ascii) : bool :=
  let n := nat_of_ascii c in (48 <=? n) && (n <=? 57).

Definition digit_val (c : ascii) : nat := nat_of_ascii c - 48.

(** [bytes.lower()]: only ASCII capitals are changed. *)
Definition lower_ascii (c : ascii) : ascii :=
  let n := nat_of_ascii c in
  if (65 <=? n) && (n <=? 90) then ascii_of_nat (n + 32) else c.

Fixpoint lower (s : string) : string :=
  match s with
  | EmptyString => EmptyString
  | String c r => String (lower_ascii c) (lower r)
  end.

(** ** DNS names ([dns.name.Name])

    An absolute name is the list of its labels from left to right, without
    the empty root label; the root is [[]]. *)
Definition name := list string.

Definition root : name := [].

(** [Name.__eq__]: labels are compared after [bytes.lower()]. *)
Definition name_eqb (n m : name) : bool :=
  if list_eq_dec string_dec (map lower n) (map lower m) then true else false.

(** [Name.parent()]: strip the leftmost label; [NoParent] at the root. *)
Definition parent (n : name) : option name :=
  match n with
  | [] => None
  | _ :: p => Some p
  end.

(** [Name.is_subdomain(z)]: [z] is a suffix of [n], case-insensitively. *)
Definition is_subdomain (n z : name) : bool :=
  (List.length z <=? List.length n) && name_eqb (skipn (List.length n - List.length z) n) z.

(** [IP6_ARPA = dns.name.from_text("ip6.arpa")] *)
Definition IP6_ARPA : name := ["ip6"; "arpa"].

(** Label text as [Name.to_text] escapes it ([_escapify]): the characters
    double quote, parentheses, dot, semicolon, backslash, at and dollar get
    a backslash, other non-printable bytes a
    three-digit decimal escape. *)
Definition three_digits (n : nat) : string :=
  String (ascii_of_nat (48 + n / 100))
    (String (ascii_of_nat (48 + (n / 10) mod 10))
       (String (ascii_of_nat (48 + n mod 10)) EmptyString)).

Definition escaped_chars : list ascii :=
  [ascii_of_nat 34; "("; ")"; "."; ";"; "\"; "@"; "$"]%char.

Fixpoint escapify (s : string) : string :=
  match s with
  | EmptyString => EmptyString
  | String c r =>
      let n := nat_of_ascii c in
      if existsb (Ascii.eqb c) escaped_chars
      then String "\" (String c (escapify r))
      else if (32 <? n) && (n <? 127) then String c (escapify r)
      else String "\" (three_digits n ++ escapify r)%string
  end.

(** [Name.to_text()] of an absolute name. *)
Definition to_text (n : name) : string :=
  match n with
  | [] => "."
  | _ => (join "." (map escapify n) ++ ".")%string
  end.

(** [Name.to_text()] of a relative name ([@] for the empty one). *)
Definition to_text_rel (l : list string) : string :=
  match l with
  | [] => "@"
  | _ => join "." (map escapify l)
  end.

(** [dnsname.relativize(zonename).to_text()]: when [n] is under [z], the
    labels of [n] before [z] as a relative name; otherwise [n] unchanged. *)
Definition relativize_text (n z : name) : string :=
  if is_subdomain n z then to_text_rel (firstn (List.length n - List.length z) n)
  else to_text n.

(** ** Zone registry: [UpdateMapper.zones] and [UpdateMapper._find] *)

Definition zone_mem (n : name) (zones : list name) : bool :=
  existsb (name_eqb n) zones.

(** [_find]: test [dnsname in self.zones], otherwise step to the parent,
    and return [None] when [parent()] raises [NoParent]. *)
Fixpoint find (zones : list name) (dnsname : name) : option name :=
  if zone_mem dnsname zones then Some dnsname
  else match dnsname with
       | [] => None
       | _ :: p => find zones p
       end.

(** ** Update batch: [begin], [_record], [add], [replace], [delete], [commit] *)

Inductive action := Add | Replace | Delete.

(** The Python values that appear in an update tuple. *)
Inductive pyval := PInt (z : Z) | PStr (s : string) | PNone.

(** [(action, (relative_name_text, *args))] *)
Definition entry : Type := action * list pyval.

(** A call [self._record(ctx, action, dnsname, *args)]. *)
Record rcall := mk_rcall { rc_action : action; rc_name : name; rc_args : list pyval }.

(** [ctx]: a Python dict from zone name to update list; a dict keeps its
    keys in insertion order and compares them with [Name.__eq__]. *)
Definition batch : Type := list (name * list entry).

(** [begin()] *)
Definition begin_batch : batch := [].

(** [ctx[zonename]] when present. *)
Fixpoint lookup (z : name) (ctx : batch) : option (list entry) :=
  match ctx with
  | [] => None
  | (k, ups) :: rest => if name_eqb k z then Some ups else lookup z rest
  end.

(** [if zonename not in ctx: ctx[zonename] = []] followed by
    [ctx[zonename].append(u)]. *)
Fixpoint append_update (ctx : batch) (z : name) (u : entry) : batch :=
  match ctx with
  | [] => [(z, [u])]
  | (k, ups) :: rest =>
      if name_eqb k z then (k, ups ++ [u]) :: rest
      else (k, ups) :: append_update rest z u
  end.

(** [_record] *)
Definition record (zones : list name) (ctx : batch) (c : rcall) : batch :=
  match find zones (rc_name c) with
  | None => ctx
  | Some zonename =>
      append_update ctx zonename
        (rc_action c, PStr (relativize_text (rc_name c) zonename) :: rc_args c)
  end.

(** The calls made by [add], [replace] and [delete]. *)
Definition add_call (dnsname : name) (ttl : Z) (rrtype data : string) : rcall :=
  mk_rcall Add dnsname [PInt ttl; PStr rrtype; PStr data].

Definition replace_call (dnsname : name) (ttl : Z) (rrtype data : string) : rcall :=
  mk_rcall Replace dnsname [PInt ttl; PStr rrtype; PStr data].

Definition delete_call (dnsname : name) (rrtype : string) (data : option string) : rcall :=
  mk_rcall Delete dnsname
    [PStr rrtype; match data with Some d => PStr d | None => PNone end].

(** The batch after a sequence of record calls on a fresh [begin()]. *)
Definition build (zones : list name) (calls : list rcall) : batch :=
  fold_left (record zones) calls begin_batch.

(** [commit]: [self.zones[n](n, updates)] for each key, in dict order; each
    element is one invocation of a zone updater. *)
Definition commit_calls (ctx : batch) : list (name * list entry) := ctx.

(** ** Parsing: [dns.name.from_text] and [dns.reversename.from_address]

    Both return [None] where dnspython raises ([EmptyLabel], [BadEscape],
    [LabelTooLong], [NameTooLong], [dns.exception.SyntaxError]).  Labels are
    ASCII; non-ASCII text, whose labels dnspython passes through IDNA, is
    outside the embedded subset and refused. *)

(** The character loop of [from_text]: escaping state, escape digits read,
    escape value, current label (reversed) and labels read (reversed). *)
Fixpoint from_text_loop (cs : list ascii) (escaping : bool) (edigits total : nat)
    (label : list ascii) (labels : list string)
    : option (bool * list ascii * list string) :=
  match cs with
  | [] => Some (escaping, label, labels)
  | c :: rest =>
      if 127 <? nat_of_ascii c then None
      else if escaping then
        if edigits =? 0 then
          if is_digit c then from_text_loop rest true 1 (digit_val c) label labels
          else from_text_loop rest false 0 total (c :: label) labels
        else if negb (is_digit c) then None
        else
          let total' := total * 10 + digit_val c in
          if edigits + 1 =? 3 then
            if 127 <? total' then None
            else from_text_loop rest false 3 total' (ascii_of_nat total' :: label) labels
          else from_text_loop rest true (edigits + 1) total' label labels
      else if Ascii.eqb c "." then
        match label with
        | [] => None
        | _ => from_text_loop rest false edigits total []
                 (string_of_list_ascii (rev label) :: labels)
        end
      else if Ascii.eqb c "\" then from_text_loop rest true 0 0 label labels
      else from_text_loop rest false edigits total (c :: label) labels
  end.

(** [Name._validate_labels]: labels of at most 63 octets, at most 255
    octets on the wire (each label with its length byte, plus the root). *)
Definition valid_labels (labels : list string) : bool :=
  forallb (fun l => String.length l <=? 63) labels
  && (fold_right (fun l acc => String.length l + 1 + acc) 1 labels <=? 255).

(** [dns.name.from_text(text)] with the root as origin: a name without a
    final dot gets the origin appended, so both forms are absolute. *)
Definition from_text (text : string) : option name :=
  if String.eqb text "@" || String.eqb text "" || String.eqb text "." then Some root
  else
    match from_text_loop (list_ascii_of_string text) false 0 0 [] [] with
    | None => None
    | Some (true, _, _) => None
    | Some (false, label, labels) =>
        let ls := match label with
                  | [] => rev labels
                  | _ => rev (string_of_list_ascii (rev label) :: labels)
                  end in
        if valid_labels ls then Some ls else None
    end.

Definition digits_value (s : string) : nat :=
  fold_left (fun acc c => acc * 10 + digit_val c) (list_ascii_of_string s) 0.

Definition all_digits (s : string) : bool :=
  negb (String.eqb s "") && forallb is_digit (list_ascii_of_string s).

(** [dns.ipv4.inet_aton]: four dot-separated decimal parts, no leading
    zero, each at most 255. *)
Definition ipv4_part (p : string) : option nat :=
  if negb (all_digits p) then None
  else if (1 <? String.length p) && (String.prefix "0" p) then None
  else let v := digits_value p in if v <=? 255 then Some v else None.

Fixpoint ipv4_parts (ps : list string) : option (list nat) :=
  match ps with
  | [] => Some []
  | p :: rest =>
      match ipv4_part p, ipv4_parts rest with
      | Some v, Some vs => Some (v :: vs)
      | _, _ => None
      end
  end.

Definition ipv4_inet_aton (text : string) : option (list nat) :=
  let parts := split_on "." text in
  if List.length parts =? 4 then ipv4_parts parts else None.

Definition hex_digit (n : nat) : ascii :=
  if n <? 10 then ascii_of_nat (48 + n) else ascii_of_nat (87 + n).

(** ['{:02x}'.format(b)] *)
Definition hex2 (b : nat) : string :=
  String (hex_digit (b / 16)) (String (hex_digit (b mod 16)) EmptyString).

(** ['%d' % b] for a byte. *)
Definition decimal (b : nat) : string :=
  if b <? 10 then String (ascii_of_nat (48 + b)) EmptyString
  else if b <? 100 then
    String (ascii_of_nat (48 + b / 10)) (String (ascii_of_nat (48 + b mod 10)) EmptyString)
  else three_digits b.

Definition is_hex (c : ascii) : bool :=
  let n := nat_of_ascii c in
  is_digit c || ((97 <=? n) && (n <=? 102)) || ((65 <=? n) && (n <=? 70)).

Definition hex_val (c : ascii) : nat :=
  let n := nat_of_ascii (lower_ascii c) in if 97 <=? n then n - 87 else n - 48.

Fixpoint last_colon_split (cs : list ascii) : option (list ascii * list ascii) :=
  match cs with
  | [] => None
  | c :: rest =>
      match last_colon_split rest with
      | Some (pre, post) => Some (c :: pre, post)
      | None => if Ascii.eqb c ":" then Some ([], rest) else None
      end
  end.

(** The [_v4_ending] rewrite (any prefix, a colon, then four dotted digit runs) of
    [dns.ipv6.inet_aton]: [None] when the embedded IPv4 address is bad. *)
Definition v4_ending (text : string) : option string :=
  match last_colon_split (list_ascii_of_string text) with
  | Some (pre, post) =>
      let parts := split_on "." (string_of_list_ascii post) in
      if (List.length parts =? 4) && forallb all_digits parts then
        match ipv4_inet_aton (string_of_list_ascii post) with
        | Some [b0; b1; b2; b3] =>
            Some (string_of_list_ascii pre ++ ":" ++ hex2 b0 ++ hex2 b1 ++ ":"
                  ++ hex2 b2 ++ hex2 b3)%string
        | _ => None
        end
      else Some text
  | None => Some text
  end.

Fixpoint zero_chunks (k : nat) : list string :=
  match k with 0 => [] | S k' => "0000" :: zero_chunks k' end.

(** The chunk loop of [dns.ipv6.inet_aton]: at most one empty chunk, which
    stands for [8 - l + 1] zero chunks, other chunks padded to 4 digits. *)
Fixpoint canon_chunks (l : nat) (chunks : list string) (seen_empty : bool)
    : option (list string * bool) :=
  match chunks with
  | [] => Some ([], seen_empty)
  | c :: rest =>
      if String.eqb c "" then
        if seen_empty then None
        else match canon_chunks l rest true with
             | Some (cs, se) => Some (zero_chunks (8 - l + 1) ++ cs, se)
             | None => None
             end
      else if 4 <? String.length c then None
      else match canon_chunks l rest seen_empty with
           | Some (cs, se) =>
               Some ((string_of_list_ascii (repeat "0"%char (4 - String.length c)) ++ c)%string
                     :: cs, se)
           | None => None
           end
  end.

Definition drop_last (s : string) : string :=
  string_of_list_ascii (removelast (list_ascii_of_string s)).

(** [dns.ipv6.inet_aton] followed by [binascii.hexlify]: the 32 lowercase
    hex digits of the address. *)
Definition ipv6_inet_aton (text0 : string) : option (list ascii) :=
  let text1 := if String.eqb text0 "::" then "0::" else text0 in
  match v4_ending text1 with
  | None => None
  | Some text2 =>
      let text3 := if String.prefix "::" text2 then substring 1 (String.length text2) text2
                   else if String.prefix "::" (string_of_list_ascii (rev (list_ascii_of_string text2)))
                   then drop_last text2 else text2 in
      let chunks := split_on ":" text3 in
      let l := List.length chunks in
      if 8 <? l then None
      else match canon_chunks l chunks false with
           | None => None
           | Some (canonical, seen_empty) =>
               if (l <? 8) && negb seen_empty then None
               else
                 let hex := list_ascii_of_string (String.concat "" canonical) in
                 if forallb is_hex hex && (List.length hex =? 32)
                 then Some (map lower_ascii hex) else None
           end
  end.

(** [dns.ipv6.is_mapped]: the first 12 bytes are [::ffff:]. *)
Definition is_mapped (nibbles : list ascii) : bool :=
  String.eqb (string_of_list_ascii (firstn 24 nibbles)) "00000000000000000000ffff".

Fixpoint nibble_bytes (ns : list ascii) : list nat :=
  match ns with
  | a :: b :: rest => (hex_val a * 16 + hex_val b) :: nibble_bytes rest
  | _ => []
  end.

Definition ipv4_reverse_domain : name := ["in-addr"; "arpa"].
Definition ipv6_reverse_domain : name := IP6_ARPA.

(** [dns.reversename.from_address]: try IPv6 (a mapped IPv4 address goes
    under [in-addr.arpa.]), then IPv4; the reversed parts are the labels in
    front of the origin. *)
Definition from_address (text : string) : option name :=
  match ipv6_inet_aton text with
  | Some v6 =>
      if is_mapped v6
      then Some (rev (map decimal (nibble_bytes (skipn 24 v6))) ++ ipv4_reverse_domain)
      else Some (rev (map (fun c => String c EmptyString) v6) ++ ipv6_reverse_domain)
  | None =>
      match ipv4_inet_aton text with
      | Some bs => Some (rev (map decimal bs) ++ ipv4_reverse_domain)
      | None => None
      end
  end.

(** ** Effects of a reconciliation call

    The state holds the batch [ctx] ([None] before [begin()]) and the log
    of observable events, newest first: batch creation, DNS queries,
    record calls and zone-updater invocations made by [commit]. *)

Inductive event :=
| EvBegin
| EvQuery (n : name) (rrtype : string)
| EvRecord (c : rcall)
| EvCommit (zone : name) (updates : list entry).

Record state := mk_state { st_ctx : option batch; st_log : list event }.

Definition init_state : state := mk_state None [].

(** Exceptions that leave a call: a parse failure of [from_text] or
    [from_address], and a query failure other than [NXDOMAIN]/[NoAnswer]. *)
Inductive exn := ValidationFailure | QueryFailure.

Inductive result (A : Type) := Ok (a : A) | Err (e : exn).
Arguments Ok {A} a.
Arguments Err {A} e.

Definition M (A : Type) : Type := state -> result A * state.

Definition ret {A} (a : A) : M A := fun s => (Ok a, s).

Definition bind {A B} (m : M A) (k : A -> M B) : M B :=
  fun s => match m s with
           | (Ok a, s') => k a s'
           | (Err e, s') => (Err e, s')
           end.

Notation "x <- c1 ;; c2" := (bind c1 (fun x => c2))
  (at level 61, c1 at next level, right associativity).
Notation "c1 ;; c2" := (bind c1 (fun _ => c2)) (at level 61, right associativity).

Definition throw {A} (e : exn) : M A := fun s => (Err e, s).

(** A dnspython parse: its exception propagates. *)
Definition parse {A} (o : option A) : M A :=
  match o with Some a => ret a | None => throw ValidationFailure end.

Definition log_event (ev : event) (s : state) : state :=
  mk_state (st_ctx s) (ev :: st_log s).

(** [ctx = self.mapper.begin()] *)
Definition begin_m : M unit :=
  fun s => (Ok tt, mk_state (Some begin_batch) (EvBegin :: st_log s)).

(** [self.mapper.add/replace/delete(ctx, ...)]: every caller has run
    [begin] first, so the [None] case is not reached. *)
Definition record_m (zones : list name) (c : rcall) : M unit :=
  fun s => match st_ctx s with
           | Some b => (Ok tt, mk_state (Some (record zones b c)) (EvRecord c :: st_log s))
           | None => (Ok tt, s)
           end.

Definition ev_commit (zu : name * list entry) : event := EvCommit (fst zu) (snd zu).

(** [self.mapper.commit(ctx)]: one updater invocation per zone key. *)
Definition commit_m : M unit :=
  fun s => match st_ctx s with
           | Some b =>
               (Ok tt, mk_state (Some b)
                         (rev (map ev_commit (commit_calls b))
                          ++ st_log s))
           | None => (Ok tt, s)
           end.

(** What [UpdateMapper.query] answers (from the zone's updater when it has
    a [query] method, from the system resolver otherwise): records, or one
    of the exceptions. *)
Inductive qresult (A : Type) := QRecords (rs : list A) | QNXDOMAIN | QNoAnswer | QError.
Arguments QRecords {A} rs.
Arguments QNXDOMAIN {A}.
Arguments QNoAnswer {A}.
Arguments QError {A}.

(** [try: rr = self.mapper.query(n, t) except (NXDOMAIN, NoAnswer): rr = []] *)
Definition query_m {A} (n : name) (rrtype : string) (r : qresult A) : M (list A) :=
  fun s =>
    let s' := log_event (EvQuery n rrtype) s in
    match r with
    | QRecords rs => (Ok rs, s')
    | QNXDOMAIN | QNoAnswer => (Ok [], s')
    | QError => (Err QueryFailure, s')
    end.

(** The [UpdateMapper] configuration, the [DNSWebHook] TTL and the DNS
    data the queries see: [r.address] of forward records, [r.target] of
    PTR records. *)
Record env := mk_env {
  zones : list name;
  ttl : Z;
  fwd_query : name -> string -> qresult string;
  ptr_query : name -> qresult name }.

Definition mfwd (e : env) (n : name) (rrtype : string) : M (list string) :=
  query_m n rrtype (fwd_query e n rrtype).

Definition mptr (e : env) (n : name) : M (list name) :=
  query_m n "PTR" (ptr_query e n).

(** [for r in rr:] threading the [found] flag. *)
Fixpoint for_found {A} (rr : list A) (found : bool) (body : bool -> A -> M bool) : M bool :=
  match rr with
  | [] => ret found
  | r :: rest => f <- body found r ;; for_found rest f body
  end.

(** [rrtype = "AAAA" if revname.is_subdomain(IP6_ARPA) else "A"] *)
Definition rrtype_of (revname : name) : string :=
  if is_subdomain revname IP6_ARPA then "AAAA" else "A".

(** Python truthiness of the [name] argument ([None] or a string). *)
Definition name_truthy (nm : option string) : bool :=
  match nm with Some s => negb (String.eqb s "") | None => false end.

(** [rrname = name and dns.name.from_text(name)]: [None] stands for a
    falsy [name], so [rrname] is [Some] exactly when [if name:] holds. *)
Definition parse_rrname (nm : option string) : M (option name) :=
  match nm with
  | Some s => if String.eqb s "" then ret None
              else n <- parse (from_text s) ;; ret (Some n)
  | None => ret None
  end.

(** [DNSWebHook.update_dns] *)
Definition update_dns (e : env) (address : string) (nm : option string) : M unit :=
  revname <- parse (from_address address) ;;
  rrname <- parse_rrname nm ;;
  let rrtype := rrtype_of revname in
  begin_m ;;
  match rrname with
  | Some rrn =>
      rr <- mfwd e rrn rrtype ;;
      found <- for_found rr false (fun found r =>
        if String.eqb r address then ret true
        else
          record_m (zones e) (delete_call rrn rrtype (Some r)) ;;
          other <- parse (from_address r) ;;
          record_m (zones e) (delete_call other "PTR" (Some (to_text rrn))) ;;
          ret found) ;;
      if negb found then record_m (zones e) (add_call rrn (ttl e) rrtype address)
      else ret tt
  | None => ret tt
  end ;;
  rr <- mptr e revname ;;
  found <- for_found rr false (fun found r =>
    let stale :=
      record_m (zones e) (delete_call revname "PTR" (Some (to_text r))) ;;
      record_m (zones e) (delete_call r rrtype (Some address)) ;;
      ret found in
    match rrname with
    | Some rrn => if name_eqb r rrn then ret true else stale
    | None => stale
    end) ;;
  match rrname with
  | Some rrn =>
      if negb found then record_m (zones e) (add_call revname (ttl e) "PTR" (to_text rrn))
      else ret tt
  | None => ret tt
  end ;;
  commit_m.

(** [DNSWebHook.delete_dns] *)
Definition delete_dns (e : env) (address : string) (nm : option string) : M unit :=
  match nm with
  | Some s =>
      if negb (String.eqb s "") then
        revname <- parse (from_address address) ;;
        rrname <- parse (from_text s) ;;
        let rrtype := rrtype_of revname in
        begin_m ;;
        record_m (zones e) (delete_call rrname rrtype (Some address)) ;;
        record_m (zones e) (delete_call revname "PTR" (Some (to_text rrname))) ;;
        commit_m
      else ret tt
  | None => ret tt
  end.

(** ** Observations on a final state *)

Fixpoint recorded_rev (log : list event) : list rcall :=
  match log with
  | [] => []
  | EvRecord c :: rest => c :: recorded_rev rest
  | _ :: rest => recorded_rev rest
  end.

Fixpoint queries_rev (log : list event) : list (name * string) :=
  match log with
  | [] => []
  | EvQuery n t :: rest => (n, t) :: queries_rev rest
  | _ :: rest => queries_rev rest
  end.

Fixpoint commits_rev (log : list event) : list (name * list entry) :=
  match log with
  | [] => []
  | EvCommit z u :: rest => (z, u) :: commits_rev rest
  | _ :: rest => commits_rev rest
  end.

(** The record calls, the queries and the updater invocations, in order. *)
Definition recorded (s : state) : list rcall := rev (recorded_rev (st_log s)).
Definition queried (s : state) : list (name * string) := rev (queries_rev (st_log s)).
Definition committed (s : state) : list (name * list entry) := rev (commits_rev (st_log s)).

(** ** Derived notions used in the statements *)

(** [UpdateMapper.__init__]: the registry keys, parsed with [from_text]. *)
Fixpoint mapper_zones (texts : list string) : option (list name) :=
  match texts with
  | [] => Some []
  | t :: rest =>
      match from_text t, mapper_zones rest with
      | Some z, Some zs => Some (z :: zs)
      | _, _ => None
      end
  end.

(** The batch entry a record call produces, under the zone it resolves to. *)
Definition resolve_call (zones : list name) (c : rcall) : list (name * entry) :=
  match find zones (rc_name c) with
  | Some z => [(z, (rc_action c, PStr (relativize_text (rc_name c) z) :: rc_args c))]
  | None => []
  end.

(** The updates that a sequence of record calls places under zone [z]:
    the entries of the calls resolving to [z], in call order. *)
Definition zone_updates (zones : list name) (z : name) (calls : list rcall) : list entry :=
  map snd (filter (fun ze => name_eqb (fst ze) z) (flat_map (resolve_call zones) calls)).

Definition key_norm (zu : name * list entry) : list string := map lower (fst zu).

(** The record type argument of a record call. *)
Definition rc_rrtype (c : rcall) : string :=
  match rc_action c, rc_args c with
  | Delete, PStr t :: _ => t
  | _, _ :: PStr t :: _ => t
  | _, _ => ""
  end.

(** ** Lemmas on names and the zone registry *)

Lemma name_eqb_true n m : name_eqb n m = true -> map lower n = map lower m.
Proof. unfold name_eqb. destruct (list_eq_dec _ _ _); congruence. Qed.

Lemma name_eqb_false n m : name_eqb n m = false -> map lower n <> map lower m.
Proof. unfold name_eqb. destruct (list_eq_dec _ _ _); congruence. Qed.

Lemma name_eqb_intro n m : map lower n = map lower m -> name_eqb n m = true.
Proof. unfold name_eqb. destruct (list_eq_dec _ _ _); congruence. Qed.

Lemma name_eqb_refl n : name_eqb n n = true.
Proof. apply name_eqb_intro. reflexivity. Qed.

Ltac names :=
  repeat match goal with
  | H : name_eqb _ _ = true |- _ => apply name_eqb_true in H
  | H : name_eqb _ _ = false |- _ => apply name_eqb_false in H
  end.

Ltac case_names :=
  repeat match goal with
  | |- context [name_eqb ?a ?b] => destruct (name_eqb a b) eqn:?
  end; names.

Lemma find_suffix zones n z : find zones n = Some z -> exists p, n = p ++ z.
Proof.
  revert z. induction n as [|l n IH]; intros z H; simpl in H.
  - destruct (zone_mem [] zones); inversion H. exists []. reflexivity.
  - destruct (zone_mem (l :: n) zones).
    + inversion H. exists []. reflexivity.
    + destruct (IH z H) as [p ->]. exists (l :: p). reflexivity.
Qed.

Lemma find_mem zones n z : find zones n = Some z -> zone_mem z zones = true.
Proof.
  revert z. induction n as [|l n IH]; intros z H; simpl in H.
  - destruct (zone_mem [] zones) eqn:E; inversion H; subst; auto.
  - destruct (zone_mem (l :: n) zones) eqn:E; [inversion H; subst; auto | auto].
Qed.

Lemma suffix_cases {A} (x : A) n p q :
  x :: n = p ++ q -> q = x :: n \/ exists p', n = p' ++ q.
Proof.
  destruct p as [|y p']; simpl; intros H.
  - left. auto.
  - right. inversion H. exists p'. reflexivity.
Qed.

Lemma find_longest zones n z : find zones n = Some z ->
  forall p q, n = p ++ q -> List.length z < List.length q -> zone_mem q zones = false.
Proof.
  revert z. induction n as [|l n IH]; intros z H p q Hn Hlt; simpl in H.
  - destruct p; [|discriminate]. simpl in Hn. subst q.
    destruct (zone_mem [] zones); inversion H; subst. simpl in Hlt. lia.
  - destruct (zone_mem (l :: n) zones) eqn:E.
    + inversion H; subst z. exfalso.
      assert (List.length (l :: n) = List.length p + List.length q)
        by (rewrite Hn; apply length_app). lia.
    + destruct (suffix_cases l n p q Hn) as [-> | [p' Hp']]; [exact E|].
      exact (IH z H p' q Hp' Hlt).
Qed.

Lemma find_none zones n : find zones n = None ->
  forall p q, n = p ++ q -> zone_mem q zones = false.
Proof.
  induction n as [|l n IH]; intros H p q Hn; simpl in H.
  - destruct p; [|discriminate]. simpl in Hn. subst q.
    destruct (zone_mem [] zones) eqn:E; [discriminate|reflexivity].
  - destruct (zone_mem (l :: n) zones) eqn:E; [discriminate|].
    destruct (suffix_cases l n p q Hn) as [-> | [p' Hp']]; [exact E|].
    exact (IH H p' q Hp').
Qed.

Lemma is_subdomain_app p z : is_subdomain (p ++ z) z = true.
Proof.
  unfold is_subdomain. rewrite length_app.
  replace (List.length p + List.length z - List.length z) with (List.length p) by lia.
  rewrite skipn_app, skipn_all, Nat.sub_diag. simpl. rewrite name_eqb_refl.
  apply andb_true_intro. split; [apply Nat.leb_le; lia | reflexivity].
Qed.

Lemma relativize_text_app p z : relativize_text (p ++ z) z = to_text_rel p.
Proof.
  unfold relativize_text. rewrite is_subdomain_app, length_app.
  replace (List.length p + List.length z - List.length z) with (List.length p) by lia.
  rewrite firstn_app, firstn_all, Nat.sub_diag. simpl. rewrite app_nil_r. reflexivity.
Qed.

(** ** Lemmas on the update batch *)

Lemma lookup_append_update ctx k u z :
  lookup z (append_update ctx k u) =
  if name_eqb k z
  then Some (match lookup z ctx with Some ups => ups | None => [] end ++ [u])
  else lookup z ctx.
Proof.
  induction ctx as [|[k' ups] rest IH]; simpl.
  - case_names; auto; congruence.
  - destruct (name_eqb k' k) eqn:E1; simpl.
    + case_names; auto; congruence.
    + rewrite IH. case_names; auto; congruence.
Qed.

Definition app_entry (ctx : batch) (ze : name * entry) : batch :=
  append_update ctx (fst ze) (snd ze).

Lemma fold_record_resolved zones calls ctx :
  fold_left (record zones) calls ctx
  = fold_left app_entry (flat_map (resolve_call zones) calls) ctx.
Proof.
  revert ctx. induction calls as [|c calls IH]; intros ctx; simpl; [reflexivity|].
  rewrite fold_left_app. unfold record, resolve_call.
  destruct (find zones (rc_name c)); simpl; apply IH.
Qed.

Definition merge (o : option (list entry)) (l : list entry) : option (list entry) :=
  match o, l with
  | None, [] => None
  | None, _ => Some l
  | Some a, _ => Some (a ++ l)
  end.

Lemma lookup_fold_app_entry es ctx z :
  lookup z (fold_left app_entry es ctx)
  = merge (lookup z ctx) (map snd (filter (fun ze => name_eqb (fst ze) z) es)).
Proof.
  revert ctx. induction es as [|[k u] es IH]; intros ctx; simpl.
  - destruct (lookup z ctx); simpl; [rewrite app_nil_r|]; reflexivity.
  - rewrite IH. unfold app_entry. simpl. rewrite lookup_append_update.
    destruct (name_eqb k z); simpl.
    + destruct (lookup z ctx); simpl; [rewrite <- app_assoc|]; reflexivity.
    + reflexivity.
Qed.

Lemma lookup_build zones calls z :
  lookup z (build zones calls)
  = match zone_updates zones z calls with [] => None | l => Some l end.
Proof.
  unfold build, begin_batch. rewrite fold_record_resolved, lookup_fold_app_entry.
  unfold zone_updates. simpl. destruct (map snd _); reflexivity.
Qed.

Lemma keys_append_update ctx k u x :
  In x (map key_norm (append_update ctx k u)) ->
  In x (map key_norm ctx) \/ x = map lower k.
Proof.
  induction ctx as [|[k' ups] rest IH]; simpl.
  - intros [H|[]]. right. unfold key_norm in H. simpl in H. auto.
  - destruct (name_eqb k' k); simpl.
    + intros [H|H]; auto.
    + intros [H|H]; auto. destruct (IH H); auto.
Qed.

Lemma nodup_append_update ctx k u :
  NoDup (map key_norm ctx) -> NoDup (map key_norm (append_update ctx k u)).
Proof.
  induction ctx as [|[k' ups] rest IH]; simpl; intros Hnd.
  - constructor; [intros []|constructor].
  - inversion Hnd as [|? ? Hnin Hnd']; subst.
    destruct (name_eqb k' k) eqn:E; simpl.
    + constructor; assumption.
    + constructor; [|apply IH; assumption].
      intros Hin. apply keys_append_update in Hin. destruct Hin as [Hin|Hin].
      * exact (Hnin Hin).
      * names. exact (E Hin).
Qed.

Lemma nodup_build zones calls : NoDup (map key_norm (build zones calls)).
Proof.
  unfold build, begin_batch. rewrite fold_record_resolved.
  generalize (flat_map (resolve_call zones) calls) as es.
  assert (H0 : NoDup (map key_norm ([] : batch))) by constructor.
  revert H0. generalize ([] : batch) as ctx.
  intros ctx Hnd es. revert ctx Hnd. induction es as [|ze es IH]; intros ctx Hnd; simpl.
  - exact Hnd.
  - apply IH. apply nodup_append_update. exact Hnd.
Qed.

Lemma lookup_in ctx k ups :
  NoDup (map key_norm ctx) -> In (k, ups) ctx -> lookup k ctx = Some ups.
Proof.
  induction ctx as [|[k' ups'] rest IH]; simpl; [intros _ []|].
  intros Hnd [Heq|Hin]; inversion Hnd as [|? ? Hnin Hnd']; subst.
  - inversion Heq; subst. rewrite name_eqb_refl. reflexivity.
  - destruct (name_eqb k' k) eqn:E.
    + names. exfalso. apply Hnin. unfold key_norm at 1. simpl. rewrite E.
      apply (in_map key_norm) in Hin. exact Hin.
    + apply IH; assumption.
Qed.

Lemma build_entries zones calls :
  Forall (fun zu => snd zu = zone_updates zones (fst zu) calls) (build zones calls).
Proof.
  apply Forall_forall. intros [k ups] Hin. simpl.
  pose proof (lookup_in _ _ _ (nodup_build zones calls) Hin) as Hl.
  rewrite lookup_build in Hl. destruct (zone_updates zones k calls); congruence.
Qed.

(** ** Reasoning about runs: invariants of the state monad *)

Definition keeps {A} (I : state -> Prop) (m : M A) : Prop :=
  forall s, I s -> I (snd (m s)).

Lemma bind_ret {A B} (a : A) (k : A -> M B) : bind (ret a) k = k a.
Proof. reflexivity. Qed.

Lemma keeps_ret {A} I (a : A) : keeps I (ret a).
Proof. intros s Hs. exact Hs. Qed.

Lemma keeps_parse {A} I (o : option A) : keeps I (parse o).
Proof. intros s Hs. destruct o; exact Hs. Qed.

Lemma keeps_parse_rrname I nm : keeps I (parse_rrname nm).
Proof.
  intros s Hs. unfold parse_rrname, bind.
  destruct nm as [t|]; [destruct (String.eqb t "")|]; try exact Hs.
  destruct (from_text t); exact Hs.
Qed.

Lemma keeps_bind {A B} I (m : M A) (k : A -> M B) :
  keeps I m -> (forall a, keeps I (k a)) -> keeps I (bind m k).
Proof.
  intros Hm Hk s Hs. unfold bind. specialize (Hm s Hs).
  destruct (m s) as [[a|e] s'] eqn:E; simpl in *; [apply Hk|]; exact Hm.
Qed.

Lemma keeps_for_found {A} I (rr : list A) f (body : bool -> A -> M bool) :
  (forall f r, keeps I (body f r)) -> keeps I (for_found rr f body).
Proof.
  intros Hb. revert f. induction rr as [|r rr IH]; intros f; simpl.
  - apply keeps_ret.
  - apply keeps_bind; [apply Hb | intros a; apply IH].
Qed.

Lemma keeps_query {A} I n t (r : qresult A) :
  (forall s, I s -> I (log_event (EvQuery n t) s)) -> keeps I (query_m n t r).
Proof. intros H s Hs. unfold query_m. destruct r; apply H; exact Hs. Qed.

(** Sequencing: what [m] establishes from [P] carries the continuation. *)
Lemma bind_post {A B} (P I : state -> Prop) (Q : result B * state -> Prop)
    (m : M A) (k : A -> M B) :
  (forall s, P s -> I (snd (m s))) ->
  (forall e s, I s -> Q (Err e, s)) ->
  (forall a s, I s -> Q (k a s)) ->
  forall s, P s -> Q (bind m k s).
Proof.
  intros Hm He Hk s Hs. unfold bind. specialize (Hm s Hs).
  destruct (m s) as [[a|e] s'] eqn:E; simpl in Hm; auto.
Qed.

Lemma bind_keeps {A B} (I : state -> Prop) (Q : result B * state -> Prop)
    (m : M A) (k : A -> M B) :
  keeps I m ->
  (forall e s, I s -> Q (Err e, s)) ->
  (forall a s, I s -> Q (k a s)) ->
  forall s, I s -> Q (bind m k s).
Proof. apply bind_post. Qed.

(** Invariants stated on every logged event. *)
Definition log_inv (P : event -> Prop) (s : state) : Prop := Forall P (st_log s).

Lemma keeps_log_record P zones c :
  P (EvRecord c) -> keeps (log_inv P) (record_m zones c).
Proof.
  intros Hc s Hs. unfold record_m. destruct (st_ctx s); simpl; [constructor|]; assumption.
Qed.

Lemma keeps_log_query {A} P n t (r : qresult A) :
  P (EvQuery n t) -> keeps (log_inv P) (query_m n t r).
Proof. intros Hq. apply keeps_query. intros s Hs. constructor; assumption. Qed.

Lemma keeps_log_begin P : P EvBegin -> keeps (log_inv P) begin_m.
Proof. intros Hb s Hs. constructor; assumption. Qed.

Lemma keeps_log_commit P :
  (forall z u, P (EvCommit z u)) -> keeps (log_inv P) commit_m.
Proof.
  intros Hc s Hs. unfold commit_m. destruct (st_ctx s) as [b|]; simpl; [|exact Hs].
  apply Forall_app. split; [|exact Hs].
  apply Forall_rev. apply Forall_forall. intros x Hx.
  apply in_map_iff in Hx. destruct Hx as [zu [<- _]]. apply Hc.
Qed.

Ltac keeps_log :=
  repeat match goal with
  | |- keeps _ (bind _ _) => apply keeps_bind; [|intros ?]
  | |- keeps _ (ret _) => apply keeps_ret
  | |- keeps _ (parse _) => apply keeps_parse
  | |- keeps _ (for_found _ _ _) => apply keeps_for_found; intros ? ?
  | |- keeps _ (record_m _ _) => apply keeps_log_record
  | |- keeps _ (mfwd _ _ _) => apply keeps_log_query
  | |- keeps _ (mptr _ _) => apply keeps_log_query
  | |- keeps _ begin_m => apply keeps_log_begin
  | |- keeps _ commit_m => apply keeps_log_commit; intros ? ?
  | |- keeps _ (parse_rrname _) => apply keeps_parse_rrname
  | |- keeps _ (match ?x with _ => _ end) => destruct x
  | |- keeps _ (let _ := _ in _) => cbv zeta
  end.

(** *** The observations on logs *)

Lemma recorded_rev_app l1 l2 : recorded_rev (l1 ++ l2) = recorded_rev l1 ++ recorded_rev l2.
Proof. induction l1 as [|[] l1 IH]; simpl; try rewrite IH; reflexivity. Qed.

Lemma commits_rev_app l1 l2 : commits_rev (l1 ++ l2) = commits_rev l1 ++ commits_rev l2.
Proof. induction l1 as [|[] l1 IH]; simpl; try rewrite IH; reflexivity. Qed.

Lemma queries_rev_app l1 l2 : queries_rev (l1 ++ l2) = queries_rev l1 ++ queries_rev l2.
Proof. induction l1 as [|[] l1 IH]; simpl; try rewrite IH; reflexivity. Qed.

Lemma recorded_rev_commits b : recorded_rev (rev (map ev_commit b)) = [].
Proof.
  induction b as [|zu b IH]; simpl; [reflexivity|].
  rewrite recorded_rev_app, IH. reflexivity.
Qed.

Lemma queries_rev_commits b : queries_rev (rev (map ev_commit b)) = [].
Proof.
  induction b as [|zu b IH]; simpl; [reflexivity|].
  rewrite queries_rev_app, IH. reflexivity.
Qed.

Lemma commits_rev_commits b : commits_rev (rev (map ev_commit b)) = rev b.
Proof.
  induction b as [|zu b IH]; simpl; [reflexivity|].
  rewrite commits_rev_app, IH. destruct zu. reflexivity.
Qed.

Lemma recorded_log_inv P s :
  log_inv P s -> Forall (fun c => P (EvRecord c)) (recorded s).
Proof.
  unfold log_inv, recorded. intros H. apply Forall_rev.
  induction (st_log s) as [|ev l IH]; simpl; [constructor|].
  inversion H; subst. destruct ev; auto.
Qed.

Lemma queried_log_inv P s :
  log_inv P s -> Forall (fun q => P (EvQuery (fst q) (snd q))) (queried s).
Proof.
  unfold log_inv, queried. intros H. apply Forall_rev.
  induction (st_log s) as [|ev l IH]; simpl; [constructor|].
  inversion H; subst. destruct ev; auto.
Qed.

(** *** The batch of a run is the batch of its record calls *)

Definition pre_batch (s : state) : Prop :=
  st_ctx s = None /\ recorded_rev (st_log s) = [] /\ commits_rev (st_log s) = [].

Definition in_batch (zones : list name) (s : state) : Prop :=
  st_ctx s = Some (build zones (recorded s)) /\ commits_rev (st_log s) = [].

Definition post_commit {A} (zones : list name) (rs : result A * state) : Prop :=
  committed (snd rs) = match fst rs with
                       | Ok _ => commit_calls (build zones (recorded (snd rs)))
                       | Err _ => []
                       end.

Lemma keeps_in_batch_record zones c : keeps (in_batch zones) (record_m zones c).
Proof.
  intros s [Hc Hm]. unfold record_m. rewrite Hc. split; simpl; [|exact Hm].
  unfold recorded. simpl. f_equal.
  unfold build. rewrite fold_left_app. reflexivity.
Qed.

Lemma keeps_in_batch_query {A} zones n t (r : qresult A) : keeps (in_batch zones) (query_m n t r).
Proof. apply keeps_query. intros s [Hc Hm]. split; assumption. Qed.

Lemma begin_in_batch zones s : pre_batch s -> in_batch zones (snd (begin_m s)).
Proof.
  intros [_ [Hr Hm]]. split; simpl; [|exact Hm].
  unfold recorded. simpl. rewrite Hr. reflexivity.
Qed.

Lemma commit_post zones s : in_batch zones s -> post_commit zones (commit_m s).
Proof.
  intros [Hc Hm]. unfold commit_m, post_commit. rewrite Hc. simpl.
  unfold committed, recorded. simpl.
  rewrite commits_rev_app, recorded_rev_app, commits_rev_commits, recorded_rev_commits, Hm.
  simpl. rewrite app_nil_r, rev_involutive. reflexivity.
Qed.

Lemma err_post_pre {A} zones e s : pre_batch s -> @post_commit A zones (Err e, s).
Proof. intros [_ [_ Hm]]. unfold post_commit, committed. simpl. rewrite Hm. reflexivity. Qed.

Lemma err_post_in {A} zones e s : in_batch zones s -> @post_commit A zones (Err e, s).
Proof. intros [_ Hm]. unfold post_commit, committed. simpl. rewrite Hm. reflexivity. Qed.

Ltac keeps_in_batch :=
  repeat match goal with
  | |- keeps _ (bind _ _) => apply keeps_bind; [|intros ?]
  | |- keeps _ (ret _) => apply keeps_ret
  | |- keeps _ (parse _) => apply keeps_parse
  | |- keeps _ (for_found _ _ _) => apply keeps_for_found; intros ? ?
  | |- keeps _ (record_m _ _) => apply keeps_in_batch_record
  | |- keeps _ (mfwd _ _ _) => apply keeps_in_batch_query
  | |- keeps _ (mptr _ _) => apply keeps_in_batch_query
  | |- keeps _ (match ?x with _ => _ end) => destruct x
  | |- keeps _ (let _ := _ in _) => cbv zeta
  end.

Lemma update_dns_post e address nm s :
  pre_batch s -> post_commit (zones e) (update_dns e address nm s).
Proof.
  revert s. unfold update_dns.
  apply (bind_post pre_batch pre_batch); [apply keeps_parse | apply err_post_pre |].
  intros revname.
  apply (bind_post pre_batch pre_batch);
    [apply keeps_parse_rrname | apply err_post_pre |].
  intros rrname. cbv zeta.
  apply (bind_post pre_batch (in_batch (zones e))); [apply begin_in_batch | apply err_post_in |].
  intros [].
  apply (bind_keeps (in_batch (zones e))); [keeps_in_batch | apply err_post_in |].
  intros [].
  apply (bind_keeps (in_batch (zones e))); [keeps_in_batch | apply err_post_in |].
  intros rr.
  apply (bind_keeps (in_batch (zones e))); [keeps_in_batch | apply err_post_in |].
  intros found.
  apply (bind_keeps (in_batch (zones e))); [keeps_in_batch | apply err_post_in |].
  intros []. apply commit_post.
Qed.

Lemma delete_dns_post e address nm s :
  pre_batch s -> post_commit (zones e) (delete_dns e address nm s).
Proof.
  intros Hs. unfold delete_dns.
  assert (Hok : post_commit (zones e) (ret tt s)).
  { destruct Hs as [_ [Hr Hm]]. unfold post_commit, committed, recorded. simpl.
    rewrite Hr, Hm. reflexivity. }
  destruct nm as [t|]; [|exact Hok]. destruct (negb (String.eqb t "")); [|exact Hok].
  clear Hok. revert s Hs.
  apply (bind_post pre_batch pre_batch); [apply keeps_parse | apply err_post_pre |].
  intros revname.
  apply (bind_post pre_batch pre_batch); [apply keeps_parse | apply err_post_pre |].
  intros rrname. cbv zeta.
  apply (bind_post pre_batch (in_batch (zones e))); [apply begin_in_batch | apply err_post_in |].
  intros [].
  apply (bind_keeps (in_batch (zones e))); [keeps_in_batch | apply err_post_in |].
  intros [].
  apply (bind_keeps (in_batch (zones e))); [keeps_in_batch | apply err_post_in |].
  intros []. apply commit_post.
Qed.

Lemma pre_batch_init : pre_batch init_state.
Proof. repeat split. Qed.

Lemma zone_updates_calls zones z calls :
  zone_updates zones z calls =
  flat_map (fun c => match find zones (rc_name c) with
                     | Some z' =>
                         if name_eqb z' z
                         then [(rc_action c, PStr (relativize_text (rc_name c) z') :: rc_args c)]
                         else []
                     | None => []
                     end) calls.
Proof.
  unfold zone_updates. induction calls as [|c calls IH]; simpl; [reflexivity|].
  rewrite filter_app, map_app, IH. unfold resolve_call.
  destruct (find zones (rc_name c)); simpl; [destruct (name_eqb _ z)|]; reflexivity.
Qed.

Lemma record_m_ok zones c s : fst (record_m zones c s) = Ok tt.
Proof. unfold record_m. destruct (st_ctx s); reflexivity. Qed.

(** ** Claims *)

(** C3: [_find] walks from the name up through its parents and returns the
    first registered zone met, which is the longest registered suffix of
    the name, and [None] (NotFound) when no suffix is registered; for the
    registry [example.com.], [2.0.192.in-addr.arpa.] it resolves
    [a.b.example.com.] to [example.com.], [10.2.0.192.in-addr.arpa.] to
    [2.0.192.in-addr.arpa.] and [other.net.] to NotFound. *)
Theorem find_longest_registered_suffix :
  (forall zones n,
     match find zones n with
     | Some z =>
         (exists p, n = p ++ z) /\ zone_mem z zones = true /\
         (forall p q, n = p ++ q -> List.length z < List.length q -> zone_mem q zones = false)
     | None => forall p q, n = p ++ q -> zone_mem q zones = false
     end) /\
  mapper_zones ["example.com."; "2.0.192.in-addr.arpa."]
    = Some [["example"; "com"]; ["2"; "0"; "192"; "in-addr"; "arpa"]] /\
  from_text "a.b.example.com." = Some ["a"; "b"; "example"; "com"] /\
  find [["example"; "com"]; ["2"; "0"; "192"; "in-addr"; "arpa"]] ["a"; "b"; "example"; "com"]
    = Some ["example"; "com"] /\
  from_text "10.2.0.192.in-addr.arpa." = Some ["10"; "2"; "0"; "192"; "in-addr"; "arpa"] /\
  find [["example"; "com"]; ["2"; "0"; "192"; "in-addr"; "arpa"]]
    ["10"; "2"; "0"; "192"; "in-addr"; "arpa"] = Some ["2"; "0"; "192"; "in-addr"; "arpa"] /\
  from_text "other.net." = Some ["other"; "net"] /\
  find [["example"; "com"]; ["2"; "0"; "192"; "in-addr"; "arpa"]] ["other"; "net"] = None.
Proof.
  split.
  - intros zones n. destruct (find zones n) as [z|] eqn:E.
    + split; [exact (find_suffix _ _ _ E)|].
      split; [exact (find_mem _ _ _ E)|exact (find_longest _ _ _ E)].
    + exact (find_none _ _ E).
  - repeat split; vm_compute; reflexivity.
Qed.

(** C2: a record call whose name resolves to no registered zone leaves the
    batch unchanged and is not an error; every update in a batch sits under
    the zone its call's name resolves to (unresolvable calls contribute
    nothing); and what [update_dns] and [delete_dns] commit is exactly the
    batch of the calls they recorded. *)
Theorem unresolvable_operations_dropped :
  (forall zones ctx c s,
     fst (record_m zones c s) = Ok tt /\
     match find zones (rc_name c) with
     | None => record zones ctx c = ctx
     | Some _ => True
     end) /\
  (forall zones calls,
     Forall (fun zu =>
       snd zu =
       flat_map (fun c => match find zones (rc_name c) with
                          | Some z' =>
                              if name_eqb z' (fst zu)
                              then [(rc_action c, PStr (relativize_text (rc_name c) z') :: rc_args c)]
                              else []
                          | None => []
                          end) calls) (build zones calls)) /\
  (forall e address nm,
     post_commit (zones e) (update_dns e address nm init_state) /\
     post_commit (zones e) (delete_dns e address nm init_state)).
Proof.
  split; [|split].
  - intros zones ctx c s. split; [apply record_m_ok|].
    unfold record. destruct (find zones (rc_name c)); reflexivity.
  - intros zones calls. eapply Forall_impl; [|apply build_entries].
    intros [z ups] H. simpl in *. rewrite H. apply zone_updates_calls.
  - intros e address nm. split; [apply update_dns_post | apply delete_dns_post];
      apply pre_batch_init.
Qed.

(** C9: a recorded update stores the name relative to its zone (the name
    is the relative part followed by the zone), at the end of the zone's
    list; each zone appears once in the batch and its list is the updates
    of the calls resolving to it, in call order; and [commit] hands each
    zone exactly that list, as [update_dns] and [delete_dns] run it. *)
Theorem record_relative_in_order :
  (forall zones n,
     match find zones n with
     | Some z => exists p, n = p ++ z /\ relativize_text n z = to_text_rel p
     | None => True
     end) /\
  (forall ctx z u,
     lookup z (append_update ctx z u)
     = Some (match lookup z ctx with Some ups => ups | None => [] end ++ [u])) /\
  (forall zones calls z,
     lookup z (build zones calls)
     = match zone_updates zones z calls with [] => None | l => Some l end) /\
  (forall zones calls,
     Forall (fun zu => snd zu = zone_updates zones (fst zu) calls)
       (commit_calls (build zones calls)) /\
     NoDup (map key_norm (commit_calls (build zones calls)))) /\
  (forall e address nm,
     post_commit (zones e) (update_dns e address nm init_state) /\
     post_commit (zones e) (delete_dns e address nm init_state)).
Proof.
  split; [|split; [|split; [|split]]].
  - intros zones n. destruct (find zones n) as [z|] eqn:E; [|exact I].
    destruct (find_suffix _ _ _ E) as [p ->]. exists p. split; [reflexivity|].
    apply relativize_text_app.
  - intros ctx z u. rewrite lookup_append_update, name_eqb_refl. reflexivity.
  - apply lookup_build.
  - intros zones calls. split; [apply build_entries | apply nodup_build].
  - intros e address nm. split; [apply update_dns_post | apply delete_dns_post];
      apply pre_batch_init.
Qed.

Lemma keeps_bind_some {A B} I (a : A) (k : A -> M B) :
  keeps I (k a) -> keeps I (bind (parse (Some a)) k).
Proof. intros H s Hs. exact (H s Hs). Qed.

(** Every event of a call for [revname] uses the PTR type or the type
    chosen from [revname]. *)
Definition typed_event (revname : name) (ev : event) : Prop :=
  match ev with
  | EvRecord c => rc_rrtype c = "PTR" \/ rc_rrtype c = rrtype_of revname
  | EvQuery _ t => t = "PTR" \/ t = rrtype_of revname
  | _ => True
  end.

Lemma update_dns_typed e address nm revname s :
  from_address address = Some revname ->
  log_inv (typed_event revname) s -> log_inv (typed_event revname) (snd (update_dns e address nm s)).
Proof.
  intros Ha. revert s. unfold update_dns. rewrite Ha. apply keeps_bind_some.
  keeps_log; simpl; auto.
Qed.

Lemma delete_dns_typed e address nm revname s :
  from_address address = Some revname ->
  log_inv (typed_event revname) s -> log_inv (typed_event revname) (snd (delete_dns e address nm s)).
Proof.
  intros Ha. revert s. unfold delete_dns.
  destruct nm as [t|]; [destruct (negb (String.eqb t ""))|]; try apply keeps_ret.
  rewrite Ha. apply keeps_bind_some. keeps_log; simpl; auto.
Qed.

(** C8: the forward type is ["AAAA"] exactly when the reverse name of the
    address lies under [ip6.arpa.] and ["A"] otherwise, and every record
    call and query of [update_dns] and [delete_dns] uses either ["PTR"] or
    that type, so the type depends on the address only through its reverse
    name (a malformed address records nothing). *)
Theorem forward_type_from_reverse_name e address nm :
  match from_address address with
  | Some revname =>
      (rrtype_of revname = "AAAA" <-> is_subdomain revname IP6_ARPA = true) /\
      (rrtype_of revname = "A" <-> is_subdomain revname IP6_ARPA = false) /\
      Forall (fun c => rc_rrtype c = "PTR" \/ rc_rrtype c = rrtype_of revname)
        (recorded (snd (update_dns e address nm init_state))) /\
      Forall (fun q => snd q = "PTR" \/ snd q = rrtype_of revname)
        (queried (snd (update_dns e address nm init_state))) /\
      Forall (fun c => rc_rrtype c = "PTR" \/ rc_rrtype c = rrtype_of revname)
        (recorded (snd (delete_dns e address nm init_state)))
  | None =>
      recorded (snd (update_dns e address nm init_state)) = [] /\
      recorded (snd (delete_dns e address nm init_state)) = []
  end.
Proof.
  destruct (from_address address) as [revname|] eqn:Ha.
  - assert (H0 : log_inv (typed_event revname) init_state) by constructor.
    split; [|split; [|split; [|split]]].
    + unfold rrtype_of. destruct (is_subdomain revname IP6_ARPA); split; congruence.
    + unfold rrtype_of. destruct (is_subdomain revname IP6_ARPA); split; congruence.
    + exact (recorded_log_inv _ _ (update_dns_typed e address nm revname _ Ha H0)).
    + exact (queried_log_inv _ _ (update_dns_typed e address nm revname _ Ha H0)).
    + exact (recorded_log_inv _ _ (delete_dns_typed e address nm revname _ Ha H0)).
  - unfold update_dns, delete_dns. rewrite Ha. split; [reflexivity|].
    destruct nm as [t|]; [destruct (negb (String.eqb t ""))|]; reflexivity.
Qed.

(** [NXDOMAIN] and [NoAnswer] replaced by an empty answer. *)
Definition empty_on_missing {A} (r : qresult A) : qresult A :=
  match r with
  | QNXDOMAIN | QNoAnswer => QRecords []
  | _ => r
  end.

Definition missing_as_empty (e : env) : env :=
  mk_env (zones e) (ttl e)
    (fun n t => empty_on_missing (fwd_query e n t))
    (fun n => empty_on_missing (ptr_query e n)).

Lemma query_m_missing {A} n t (r : qresult A) : query_m n t (empty_on_missing r) = query_m n t r.
Proof. destruct r; reflexivity. Qed.

Lemma mfwd_missing e : mfwd (missing_as_empty e) = mfwd e.
Proof.
  apply functional_extensionality. intros n. apply functional_extensionality. intros t.
  unfold mfwd. simpl. apply query_m_missing.
Qed.

Lemma mptr_missing e : mptr (missing_as_empty e) = mptr e.
Proof.
  apply functional_extensionality. intros n. unfold mptr. simpl. apply query_m_missing.
Qed.

(** C7: a query answered with [NXDOMAIN] or [NoAnswer] returns an empty
    list without error, so [update_dns] behaves exactly as when both the
    forward and the PTR query return no records. *)
Theorem missing_answers_are_empty :
  (forall A n t s,
     query_m n t (@QNXDOMAIN A) s = (Ok [], log_event (EvQuery n t) s) /\
     query_m n t (@QNoAnswer A) s = (Ok [], log_event (EvQuery n t) s)) /\
  (forall e address nm s,
     update_dns e address nm s = update_dns (missing_as_empty e) address nm s).
Proof.
  split.
  - intros A n t s. split; reflexivity.
  - intros e address nm s. unfold update_dns. rewrite mfwd_missing, mptr_missing.
    reflexivity.
Qed.

(** An environment with no DNS data, the registry of the command-line
    entry point ([{"." : DummyUpdater()}]) and the default TTL. *)
Definition env_empty : env :=
  mk_env [root] 3600%Z (fun _ _ => QNXDOMAIN) (fun _ => QNXDOMAIN).

(** C6 (counterexample): [delete_dns] with an unparsable address and no
    name returns normally instead of failing. *)
Lemma delete_dns_malformed_without_name_returns :
  from_address "not-an-address" = None /\
  delete_dns env_empty "not-an-address" None init_state = (Ok tt, init_state).
Proof. split; vm_compute; reflexivity. Qed.

(** C6 (amended): an unparsable address, or a present name that does not
    parse, makes [update_dns] fail before the batch is created, leaving the
    state untouched; [delete_dns] does the same when the name is present,
    and with an absent name it parses nothing and does nothing. *)
Theorem malformed_input_fails_before_batch e address nm s0 :
  from_address address = None \/ (exists t, nm = Some t /\ t <> "" /\ from_text t = None) ->
  update_dns e address nm s0 = (Err ValidationFailure, s0) /\
  (name_truthy nm = true -> delete_dns e address nm s0 = (Err ValidationFailure, s0)) /\
  (name_truthy nm = false -> delete_dns e address nm s0 = (Ok tt, s0)).
Proof.
  intros H.
  assert (Hdel_none : name_truthy nm = false -> delete_dns e address nm s0 = (Ok tt, s0)).
  { unfold delete_dns, name_truthy. destruct nm as [t|]; [|reflexivity].
    intros Hf. rewrite Hf. reflexivity. }
  destruct H as [Ha | [t [-> [Hne Ht]]]].
  - unfold update_dns. rewrite Ha. split; [reflexivity|split; [|exact Hdel_none]].
    unfold delete_dns, name_truthy. intros Ht.
    destruct nm as [t|]; [rewrite Ht, Ha; reflexivity | discriminate].
  - apply String.eqb_neq in Hne.
    assert (Hu : update_dns e address (Some t) s0 = (Err ValidationFailure, s0)).
    { unfold update_dns. destruct (from_address address); [|reflexivity].
      unfold bind at 1. simpl. unfold parse_rrname. rewrite Hne, Ht. reflexivity. }
    split; [exact Hu|split; [|exact Hdel_none]].
    intros _. unfold delete_dns. cbv beta iota. rewrite Hne. simpl.
    destruct (from_address address); [|reflexivity]. simpl.
    unfold bind at 1. simpl. rewrite Ht. reflexivity.
Qed.

Lemma malformed_input_fails_before_batch_witness :
  from_address "1.2.3" = None /\
  update_dns env_empty "1.2.3" (Some "h.example.com.") init_state
    = (Err ValidationFailure, init_state) /\
  delete_dns env_empty "1.2.3" (Some "h.example.com.") init_state
    = (Err ValidationFailure, init_state).
Proof.
  assert (Ha : from_address "1.2.3" = None) by (vm_compute; reflexivity).
  destruct (malformed_input_fails_before_batch env_empty "1.2.3" (Some "h.example.com.")
              init_state (or_introl Ha)) as [Hu [Hd _]].
  split; [exact Ha|split; [exact Hu|apply Hd; reflexivity]].
Defined.

(** *** Runs of the entry points on given DNS data *)

Lemma observe_committed_state b log :
  recorded (mk_state (Some b) (rev (map ev_commit b) ++ log)) = rev (recorded_rev log) /\
  queried (mk_state (Some b) (rev (map ev_commit b) ++ log)) = rev (queries_rev log) /\
  committed (mk_state (Some b) (rev (map ev_commit b) ++ log)) = rev (commits_rev log) ++ b.
Proof.
  unfold recorded, queried, committed. simpl.
  rewrite recorded_rev_app, queries_rev_app, commits_rev_app,
    recorded_rev_commits, queries_rev_commits, commits_rev_commits.
  simpl. rewrite rev_app_distr, rev_involutive. auto.
Qed.

Lemma for_found_all_true {A} (rr : list A) f (body : bool -> A -> M bool) s :
  rr <> [] -> (forall f r s, In r rr -> body f r s = (Ok true, s)) ->
  for_found rr f body s = (Ok true, s).
Proof.
  revert f. induction rr as [|r rr IH]; intros f Hne Hb; [congruence|].
  simpl. unfold bind. rewrite Hb by (left; reflexivity).
  destruct rr as [|r' rr']; [reflexivity|].
  apply IH; [discriminate|]. intros f' x s' Hx. apply Hb. right. exact Hx.
Qed.

(** [update_dns] when the name has one forward record, for another
    address [old], and the address has no PTR record. *)
Lemma update_dns_one_stale_run e address t rrname revname old revold :
  from_address address = Some revname -> (t =? "")%string = false ->
  from_text t = Some rrname -> from_address old = Some revold ->
  (old =? address)%string = false ->
  fwd_query e rrname (rrtype_of revname) = QRecords [old] ->
  empty_on_missing (ptr_query e revname) = QRecords [] ->
  let calls := [delete_call rrname (rrtype_of revname) (Some old);
                delete_call revold "PTR" (Some (to_text rrname));
                add_call rrname (ttl e) (rrtype_of revname) address;
                add_call revname (ttl e) "PTR" (to_text rrname)] in
  update_dns e address (Some t) init_state =
  (Ok tt, mk_state (Some (build (zones e) calls))
            (rev (map ev_commit (build (zones e) calls)) ++
             [EvRecord (add_call revname (ttl e) "PTR" (to_text rrname));
              EvQuery revname "PTR";
              EvRecord (add_call rrname (ttl e) (rrtype_of revname) address);
              EvRecord (delete_call revold "PTR" (Some (to_text rrname)));
              EvRecord (delete_call rrname (rrtype_of revname) (Some old));
              EvQuery rrname (rrtype_of revname); EvBegin])).
Proof.
  intros Ha Hne Ht Ho Hoa Hf Hp calls.
  unfold update_dns. rewrite Ha. unfold bind at 1. simpl parse. cbv beta iota.
  unfold parse_rrname. rewrite Hne, Ht. cbv beta iota.
  unfold mfwd, query_m, bind. simpl. rewrite Hf. simpl. rewrite Hoa, Ho. simpl.
  unfold mptr, query_m.
  destruct (ptr_query e revname) as [rs| | |]; simpl in Hp; try discriminate;
    [inversion Hp; subst rs|..]; reflexivity.
Qed.

Lemma update_dns_one_stale e address t rrname revname old revold :
  from_address address = Some revname -> (t =? "")%string = false ->
  from_text t = Some rrname -> from_address old = Some revold ->
  (old =? address)%string = false ->
  fwd_query e rrname (rrtype_of revname) = QRecords [old] ->
  empty_on_missing (ptr_query e revname) = QRecords [] ->
  let rs := update_dns e address (Some t) init_state in
  fst rs = Ok tt /\
  queried (snd rs) = [(rrname, rrtype_of revname); (revname, "PTR")] /\
  recorded (snd rs) = [delete_call rrname (rrtype_of revname) (Some old);
                       delete_call revold "PTR" (Some (to_text rrname));
                       add_call rrname (ttl e) (rrtype_of revname) address;
                       add_call revname (ttl e) "PTR" (to_text rrname)] /\
  committed (snd rs) = commit_calls (build (zones e) (recorded (snd rs))).
Proof.
  intros Ha Hne Ht Ho Hoa Hf Hp rs. subst rs.
  rewrite (update_dns_one_stale_run e address t rrname revname old revold Ha Hne Ht Ho Hoa Hf Hp).
  simpl snd. destruct (observe_committed_state
    (build (zones e) [delete_call rrname (rrtype_of revname) (Some old);
                      delete_call revold "PTR" (Some (to_text rrname));
                      add_call rrname (ttl e) (rrtype_of revname) address;
                      add_call revname (ttl e) "PTR" (to_text rrname)])
    [EvRecord (add_call revname (ttl e) "PTR" (to_text rrname));
     EvQuery revname "PTR";
     EvRecord (add_call rrname (ttl e) (rrtype_of revname) address);
     EvRecord (delete_call revold "PTR" (Some (to_text rrname)));
     EvRecord (delete_call rrname (rrtype_of revname) (Some old));
     EvQuery rrname (rrtype_of revname); EvBegin]) as [Hr [Hq Hc]].
  rewrite Hr, Hq, Hc. simpl. auto.
Qed.

Definition h_example : name := ["h"; "example"; "com"].
Definition rev_1_2_3_4 : name := ["4"; "3"; "2"; "1"; "in-addr"; "arpa"].
Definition rev_5_6_7_8 : name := ["8"; "7"; "6"; "5"; "in-addr"; "arpa"].
Definition rev_9_9_9_9 : name := ["9"; "9"; "9"; "9"; "in-addr"; "arpa"].

Lemma parses_of_examples :
  from_text "h.example.com." = Some h_example /\
  from_address "1.2.3.4" = Some rev_1_2_3_4 /\
  from_address "5.6.7.8" = Some rev_5_6_7_8 /\
  from_address "9.9.9.9" = Some rev_9_9_9_9 /\
  to_text h_example = "h.example.com." /\
  to_text rev_1_2_3_4 = "4.3.2.1.in-addr.arpa." /\
  to_text rev_5_6_7_8 = "8.7.6.5.in-addr.arpa.".
Proof. repeat split; vm_compute; reflexivity. Qed.

(** C1: when the forward query of [h.example.com.] returns the A record
    [9.9.9.9] and the PTR query at the reverse name of [1.2.3.4] returns no
    records, [update_dns("1.2.3.4", "h.example.com.")] records, in this
    order, the delete of A [h.example.com.] -> [9.9.9.9], the delete of the
    PTR at the reverse name of [9.9.9.9] targeting [h.example.com.], the add
    of A [h.example.com.] -> [1.2.3.4] and the add of the PTR at the reverse
    name of [1.2.3.4] targeting [h.example.com.], both with the configured
    TTL; it commits the batch of these calls, which under the root zone is
    this one list in this order. *)
Theorem query_assisted_stale_cleanup e :
  fwd_query e h_example "A" = QRecords ["9.9.9.9"] ->
  empty_on_missing (ptr_query e rev_1_2_3_4) = QRecords [] ->
  let rs := update_dns e "1.2.3.4" (Some "h.example.com.") init_state in
  fst rs = Ok tt /\
  recorded (snd rs) =
    [delete_call h_example "A" (Some "9.9.9.9");
     delete_call rev_9_9_9_9 "PTR" (Some "h.example.com.");
     add_call h_example (ttl e) "A" "1.2.3.4";
     add_call rev_1_2_3_4 (ttl e) "PTR" "h.example.com."] /\
  committed (snd rs) = commit_calls (build (zones e) (recorded (snd rs))) /\
  (zones e = [root] ->
   committed (snd rs) =
     [(root, [(Delete, [PStr "h.example.com"; PStr "A"; PStr "9.9.9.9"]);
              (Delete, [PStr "9.9.9.9.in-addr.arpa"; PStr "PTR"; PStr "h.example.com."]);
              (Add, [PStr "h.example.com"; PInt (ttl e); PStr "A"; PStr "1.2.3.4"]);
              (Add, [PStr "4.3.2.1.in-addr.arpa"; PInt (ttl e); PStr "PTR";
                     PStr "h.example.com."])])]).
Proof.
  intros Hf Hp rs.
  destruct (update_dns_one_stale e "1.2.3.4" "h.example.com." h_example rev_1_2_3_4
              "9.9.9.9" rev_9_9_9_9 eq_refl eq_refl eq_refl eq_refl eq_refl Hf Hp)
    as [Hok [_ [Hr Hc]]].
  fold rs in Hok, Hr, Hc.
  split; [exact Hok|]. split; [exact Hr|]. split; [exact Hc|].
  intros Hz. rewrite Hc, Hr, Hz. vm_compute. reflexivity.
Qed.

(** DNS data with the A record [h.example.com.] -> [addr] and its PTR. *)
Definition env_bound (addr : string) (revaddr : name) : env :=
  mk_env [root] 3600%Z
    (fun n t => if name_eqb n h_example && String.eqb t "A"
                then QRecords [addr] else QNXDOMAIN)
    (fun n => if name_eqb n revaddr then QRecords [h_example] else QNXDOMAIN).

Lemma query_assisted_stale_cleanup_witness :
  fwd_query (env_bound "9.9.9.9" rev_9_9_9_9) h_example "A" = QRecords ["9.9.9.9"] /\
  empty_on_missing (ptr_query (env_bound "9.9.9.9" rev_9_9_9_9) rev_1_2_3_4) = QRecords [] /\
  fst (update_dns (env_bound "9.9.9.9" rev_9_9_9_9) "1.2.3.4" (Some "h.example.com.")
         init_state) = Ok tt.
Proof.
  assert (Hf : fwd_query (env_bound "9.9.9.9" rev_9_9_9_9) h_example "A"
               = QRecords ["9.9.9.9"]) by reflexivity.
  assert (Hp : empty_on_missing (ptr_query (env_bound "9.9.9.9" rev_9_9_9_9) rev_1_2_3_4)
               = QRecords []) by reflexivity.
  split; [exact Hf|split; [exact Hp|]].
  exact (proj1 (query_assisted_stale_cleanup _ Hf Hp)).
Defined.

(** C4 (counterexample): the code has no snapshot mode taking the old
    binding; the transition from ([1.2.3.4], [h.example.com.]) to
    ([5.6.7.8], [h.example.com.]) goes through [update_dns], which reads
    DNS. *)
Lemma transition_reads_dns :
  queried (snd (update_dns (env_bound "1.2.3.4" rev_1_2_3_4) "5.6.7.8"
                  (Some "h.example.com.") init_state))
    = [(h_example, "A"); (rev_5_6_7_8, "PTR")] /\
  queried (snd (update_dns (env_bound "1.2.3.4" rev_1_2_3_4) "5.6.7.8"
                  (Some "h.example.com.") init_state)) <> [].
Proof. split; vm_compute; [reflexivity | discriminate]. Qed.

(** C4 (amended): reconciling the new binding ([5.6.7.8],
    [h.example.com.]) with [update_dns] when DNS holds the old binding
    (the forward query returns only [1.2.3.4], nothing is at
    [8.7.6.5.in-addr.arpa.]) queries the forward and the PTR records and
    records exactly the delete of A [h.example.com.] -> [1.2.3.4], the
    delete of PTR [4.3.2.1.in-addr.arpa.] -> [h.example.com.], the add of A
    [h.example.com.] -> [5.6.7.8] and the add of PTR [8.7.6.5.in-addr.arpa.]
    -> [h.example.com.], then commits their batch. *)
Theorem transition_by_query_assisted_update e :
  fwd_query e h_example "A" = QRecords ["1.2.3.4"] ->
  empty_on_missing (ptr_query e rev_5_6_7_8) = QRecords [] ->
  let rs := update_dns e "5.6.7.8" (Some "h.example.com.") init_state in
  fst rs = Ok tt /\
  queried (snd rs) = [(h_example, "A"); (rev_5_6_7_8, "PTR")] /\
  recorded (snd rs) =
    [delete_call h_example "A" (Some "1.2.3.4");
     delete_call rev_1_2_3_4 "PTR" (Some "h.example.com.");
     add_call h_example (ttl e) "A" "5.6.7.8";
     add_call rev_5_6_7_8 (ttl e) "PTR" "h.example.com."] /\
  committed (snd rs) = commit_calls (build (zones e) (recorded (snd rs))).
Proof.
  intros Hf Hp.
  exact (update_dns_one_stale e "5.6.7.8" "h.example.com." h_example rev_5_6_7_8
           "1.2.3.4" rev_1_2_3_4 eq_refl eq_refl eq_refl eq_refl eq_refl Hf Hp).
Qed.

Lemma transition_by_query_assisted_update_witness :
  fwd_query (env_bound "1.2.3.4" rev_1_2_3_4) h_example "A" = QRecords ["1.2.3.4"] /\
  empty_on_missing (ptr_query (env_bound "1.2.3.4" rev_1_2_3_4) rev_5_6_7_8) = QRecords [] /\
  fst (update_dns (env_bound "1.2.3.4" rev_1_2_3_4) "5.6.7.8" (Some "h.example.com.")
         init_state) = Ok tt.
Proof.
  assert (Hf : fwd_query (env_bound "1.2.3.4" rev_1_2_3_4) h_example "A"
               = QRecords ["1.2.3.4"]) by reflexivity.
  assert (Hp : empty_on_missing (ptr_query (env_bound "1.2.3.4" rev_1_2_3_4) rev_5_6_7_8)
               = QRecords []) by reflexivity.
  split; [exact Hf|split; [exact Hp|]].
  exact (proj1 (transition_by_query_assisted_update _ Hf Hp)).
Defined.

Lemma delete_dns_run e address t revname rrname :
  (t =? "")%string = false -> from_address address = Some revname -> from_text t = Some rrname ->
  let calls := [delete_call rrname (rrtype_of revname) (Some address);
                delete_call revname "PTR" (Some (to_text rrname))] in
  delete_dns e address (Some t) init_state =
  (Ok tt, mk_state (Some (build (zones e) calls))
            (rev (map ev_commit (build (zones e) calls)) ++
             [EvRecord (delete_call revname "PTR" (Some (to_text rrname)));
              EvRecord (delete_call rrname (rrtype_of revname) (Some address)); EvBegin])).
Proof.
  intros Hne Ha Ht calls. unfold delete_dns. cbv beta iota. rewrite Hne. simpl negb. cbv iota.
  rewrite Ha. unfold bind at 1. simpl parse. cbv beta iota.
  rewrite Ht. reflexivity.
Qed.

(** C5: [delete_dns] with a present name records exactly the delete of
    the forward record (A or AAAA) from the name to the address and the
    delete of the PTR record at the address's reverse name targeting the
    name, reads nothing and commits their batch; with an absent name ([None]
    or empty) it changes nothing whatever the address: no batch, no record
    call, no updater invocation. *)
Theorem delete_dns_deletes_pair e address nm :
  if name_truthy nm then
    match nm with
    | Some t =>
        match from_address address, from_text t with
        | Some revname, Some rrname =>
            let rs := delete_dns e address nm init_state in
            fst rs = Ok tt /\
            queried (snd rs) = [] /\
            recorded (snd rs) =
              [delete_call rrname (rrtype_of revname) (Some address);
               delete_call revname "PTR" (Some (to_text rrname))] /\
            committed (snd rs) = commit_calls (build (zones e) (recorded (snd rs)))
        | _, _ => delete_dns e address nm init_state = (Err ValidationFailure, init_state)
        end
    | None => True
    end
  else forall s0, delete_dns e address nm s0 = (Ok tt, s0).
Proof.
  destruct nm as [t|]; unfold name_truthy; [|intros s0; reflexivity].
  destruct (String.eqb t "") eqn:Hne; cbn [negb].
  - intros s0. unfold delete_dns. cbv beta iota. rewrite ?Hne. reflexivity.
  - destruct (from_address address) as [revname|] eqn:Ha;
      [destruct (from_text t) as [rrname|] eqn:Ht|].
    + rewrite (delete_dns_run e address t revname rrname Hne Ha Ht). simpl snd.
      destruct (observe_committed_state
        (build (zones e) [delete_call rrname (rrtype_of revname) (Some address);
                          delete_call revname "PTR" (Some (to_text rrname))])
        [EvRecord (delete_call revname "PTR" (Some (to_text rrname)));
         EvRecord (delete_call rrname (rrtype_of revname) (Some address)); EvBegin])
        as [Hr [Hq Hc]].
      rewrite Hr, Hq, Hc. simpl. auto.
    + unfold delete_dns. cbv beta iota. rewrite ?Hne. simpl negb. cbv iota. rewrite Ha.
      unfold bind at 1. simpl parse. cbv beta iota. rewrite Ht. reflexivity.
    + unfold delete_dns. cbv beta iota. rewrite ?Hne. simpl negb. cbv iota. rewrite Ha. reflexivity.
Qed.

Lemma update_dns_converged_run e address t rrname revname l m :
  from_address address = Some revname -> (t =? "")%string = false -> from_text t = Some rrname ->
  fwd_query e rrname (rrtype_of revname) = QRecords l -> l <> [] ->
  Forall (fun r => r = address) l ->
  ptr_query e revname = QRecords m -> m <> [] ->
  Forall (fun r => name_eqb r rrname = true) m ->
  update_dns e address (Some t) init_state =
  (Ok tt, mk_state (Some [])
            [EvQuery revname "PTR"; EvQuery rrname (rrtype_of revname); EvBegin]).
Proof.
  intros Ha Hne Ht Hf Hl Hla Hp Hm Hmr.
  rewrite Forall_forall in Hla, Hmr.
  unfold update_dns. rewrite Ha. unfold bind at 1. simpl parse. cbv beta iota.
  unfold parse_rrname. rewrite Hne, Ht. cbv beta iota.
  unfold mfwd, query_m, bind. simpl. rewrite Hf. simpl.
  rewrite (for_found_all_true l false _ _ Hl).
  2:{ intros f r s Hr. rewrite (Hla r Hr), String.eqb_refl. reflexivity. }
  simpl. unfold mptr, query_m. rewrite Hp. simpl.
  rewrite (for_found_all_true m false _ _ Hm).
  2:{ intros f r s Hr. rewrite (Hmr r Hr). reflexivity. }
  reflexivity.
Qed.

(** C10: when the name's forward query returns only records equal to the
    address (at least one) and the PTR query returns only records
    targeting the name (at least one), [update_dns] records nothing, the
    batch stays empty and [commit] invokes no zone updater. *)
Theorem converged_state_no_updates e address t rrname revname l m :
  from_address address = Some revname -> t <> "" -> from_text t = Some rrname ->
  fwd_query e rrname (rrtype_of revname) = QRecords l -> l <> [] ->
  Forall (fun r => r = address) l ->
  ptr_query e revname = QRecords m -> m <> [] ->
  Forall (fun r => name_eqb r rrname = true) m ->
  let rs := update_dns e address (Some t) init_state in
  fst rs = Ok tt /\ recorded (snd rs) = [] /\ st_ctx (snd rs) = Some [] /\
  committed (snd rs) = [].
Proof.
  intros Ha Hne Ht Hf Hl Hla Hp Hm Hmr rs. subst rs.
  apply String.eqb_neq in Hne.
  rewrite (update_dns_converged_run e address t rrname revname l m
             Ha Hne Ht Hf Hl Hla Hp Hm Hmr).
  repeat split.
Qed.

Lemma converged_state_no_updates_witness :
  from_address "1.2.3.4" = Some rev_1_2_3_4 /\
  "h.example.com." <> "" /\
  from_text "h.example.com." = Some h_example /\
  fwd_query (env_bound "1.2.3.4" rev_1_2_3_4) h_example (rrtype_of rev_1_2_3_4)
    = QRecords ["1.2.3.4"] /\
  ptr_query (env_bound "1.2.3.4" rev_1_2_3_4) rev_1_2_3_4 = QRecords [h_example] /\
  committed (snd (update_dns (env_bound "1.2.3.4" rev_1_2_3_4) "1.2.3.4"
                    (Some "h.example.com.") init_state)) = [].
Proof.
  assert (Ha : from_address "1.2.3.4" = Some rev_1_2_3_4) by (vm_compute; reflexivity).
  assert (Hne : "h.example.com." <> "") by discriminate.
  assert (Ht : from_text "h.example.com." = Some h_example) by (vm_compute; reflexivity).
  assert (Hf : fwd_query (env_bound "1.2.3.4" rev_1_2_3_4) h_example (rrtype_of rev_1_2_3_4)
               = QRecords ["1.2.3.4"]) by reflexivity.
  assert (Hp : ptr_query (env_bound "1.2.3.4" rev_1_2_3_4) rev_1_2_3_4
               = QRecords [h_example]) by reflexivity.
  do 5 (split; [assumption|]).
  refine (proj2 (proj2 (proj2 (converged_state_no_updates
            (env_bound "1.2.3.4" rev_1_2_3_4) "1.2.3.4" "h.example.com." h_example
            rev_1_2_3_4 ["1.2.3.4"] [h_example] Ha Hne Ht Hf _ _ Hp _ _)))).
  - discriminate.
  - repeat constructor.
  - discriminate.
  - repeat constructor.
Defined.

(** * Further properties of the code *)

(** ** What [update_dns] records, as lists of calls *)

(** The record calls of the forward loop for one A/AAAA record [r]. *)
Definition stale_forward (address rrtype : string) (rrn : name) (l : list string) : list rcall :=
  flat_map (fun r =>
    if String.eqb r address then []
    else match from_address r with
         | Some other => [delete_call rrn rrtype (Some r);
                          delete_call other "PTR" (Some (to_text rrn))]
         | None => []
         end) l.

(** The record calls of the PTR loop for the targets not kept. *)
Definition stale_reverse (address rrtype : string) (revname : name) (keep : name -> bool)
    (m : list name) : list rcall :=
  flat_map (fun r =>
    if keep r then []
    else [delete_call revname "PTR" (Some (to_text r)); delete_call r rrtype (Some address)]) m.

(** The record calls among a chronological list of events. *)
Definition calls_of (evs : list event) : list rcall :=
  flat_map (fun ev => match ev with EvRecord c => [c] | _ => [] end) evs.

Definition queries_of (evs : list event) : list (name * string) :=
  flat_map (fun ev => match ev with EvQuery n t => [(n, t)] | _ => [] end) evs.

(** [m] run on a state with a batch returns [r], appends the events
    [evs] (in chronological order) to the log and records their calls into
    the batch. *)
Definition emits {A} (zones : list name) (m : M A) (r : result A) (evs : list event) : Prop :=
  forall s b, st_ctx s = Some b ->
    m s = (r, mk_state (Some (fold_left (record zones) (calls_of evs) b)) (rev evs ++ st_log s)).

(** The events of one step of the forward loop and of the PTR loop. *)
Definition fwd_events (address rrtype : string) (rrn : name) (r : string) : list event :=
  if String.eqb r address then []
  else match from_address r with
       | Some other => [EvRecord (delete_call rrn rrtype (Some r));
                        EvRecord (delete_call other "PTR" (Some (to_text rrn)))]
       | None => []
       end.

Definition ptr_events (address rrtype : string) (revname : name) (keep : name -> bool)
    (r : name) : list event :=
  if keep r then []
  else [EvRecord (delete_call revname "PTR" (Some (to_text r)));
        EvRecord (delete_call r rrtype (Some address))].

(** A query answer as the code sees it after the [except] clause. *)
Definition answers {A} (r : qresult A) (l : list A) : Prop := empty_on_missing r = QRecords l.

Lemma calls_of_app l1 l2 : calls_of (l1 ++ l2) = calls_of l1 ++ calls_of l2.
Proof. unfold calls_of. apply flat_map_app. Qed.

Lemma emits_ret {A} zones (a : A) : emits zones (ret a) (Ok a) [].
Proof. intros [c l] b H. simpl in H. subst c. reflexivity. Qed.

Lemma emits_record zones c : emits zones (record_m zones c) (Ok tt) [EvRecord c].
Proof. intros [ctx l] b H. simpl in H. subst ctx. reflexivity. Qed.

Lemma emits_query {A} zones n t (r : qresult A) l :
  answers r l -> emits zones (query_m n t r) (Ok l) [EvQuery n t].
Proof.
  intros Hr [ctx lg] b H. simpl in H. subst ctx. unfold query_m.
  destruct r; simpl in Hr; inversion Hr; reflexivity.
Qed.

Lemma emits_query_err {A} zones n t :
  emits zones (query_m n t (@QError A)) (Err QueryFailure) [EvQuery n t].
Proof. intros [ctx lg] b H. simpl in H. subst ctx. reflexivity. Qed.

Lemma emits_parse_none {A} zones : emits zones (@parse A None) (Err ValidationFailure) [].
Proof. intros [c l] b H. simpl in H. subst c. reflexivity. Qed.

Lemma emits_bind {A B} zones (m : M A) (k : A -> M B) a r evs1 evs2 :
  emits zones m (Ok a) evs1 -> emits zones (k a) r evs2 -> emits zones (bind m k) r (evs1 ++ evs2).
Proof.
  intros H1 H2 s b Hs. unfold bind. rewrite (H1 s b Hs).
  rewrite (H2 (mk_state _ _) _ eq_refl). simpl.
  rewrite calls_of_app, fold_left_app, rev_app_distr, app_assoc. reflexivity.
Qed.

Lemma emits_bind_err {A B} zones (m : M A) (k : A -> M B) x evs :
  emits zones m (Err x) evs -> emits zones (bind m k) (Err x) evs.
Proof. intros H s b Hs. unfold bind. rewrite (H s b Hs). reflexivity. Qed.

Lemma emits_eq {A} zones (m : M A) r evs evs' :
  evs = evs' -> emits zones m r evs -> emits zones m r evs'.
Proof. intros ->. exact id. Qed.

Lemma emits_run {A B} zones (m : M A) (k : A -> M B) a evs s b :
  emits zones m (Ok a) evs -> st_ctx s = Some b ->
  bind m k s = k a (mk_state (Some (fold_left (record zones) (calls_of evs) b)) (rev evs ++ st_log s)).
Proof. intros H Hs. unfold bind. rewrite (H s b Hs). reflexivity. Qed.

Lemma emits_for_found {A} zones (l : list A) f (body : bool -> A -> M bool)
    (step : bool -> A -> bool) (evs : A -> list event) :
  (forall f r, In r l -> emits zones (body f r) (Ok (step f r)) (evs r)) ->
  emits zones (for_found l f body) (Ok (fold_left step l f)) (flat_map evs l).
Proof.
  revert f. induction l as [|r l IH]; intros f Hb; simpl.
  - apply emits_ret.
  - apply (emits_bind _ _ _ (step f r)); [apply Hb; left; reflexivity|].
    apply IH. intros f' r' Hr'. apply Hb. right. exact Hr'.
Qed.

Lemma emits_for_found_err {A} zones (l : list A) f (body : bool -> A -> M bool)
    (good bad : A -> Prop) x :
  (forall r, In r l -> good r \/ bad r) -> (exists r, In r l /\ bad r) ->
  (forall f r, good r -> exists f' evs, emits zones (body f r) (Ok f') evs) ->
  (forall f r, bad r -> exists evs, emits zones (body f r) (Err x) evs) ->
  exists evs, emits zones (for_found l f body) (Err x) evs.
Proof.
  intros Hcl Hex Hg Hb. revert f Hcl Hex. induction l as [|r l IH]; intros f Hcl Hex.
  - destruct Hex as [? [[] _]].
  - simpl. destruct Hex as [r0 [[<-|Hin] Hbad]].
    + destruct (Hb f r Hbad) as [evs He]. exists evs. apply emits_bind_err. exact He.
    + destruct (Hcl r (or_introl eq_refl)) as [Hgood|Hbad'].
      * destruct (Hg f r Hgood) as [f' [evs1 He1]].
        destruct (IH f' (fun r' H => Hcl r' (or_intror H)) (ex_intro _ r0 (conj Hin Hbad)))
          as [evs2 He2].
        exists (evs1 ++ evs2). eapply emits_bind; eassumption.
      * destruct (Hb f r Hbad') as [evs He]. exists evs. apply emits_bind_err. exact He.
Qed.

Lemma fold_left_found {A} (p : A -> bool) l f :
  fold_left (fun f r => if p r then true else f) l f = f || existsb p l.
Proof.
  revert f. induction l as [|r l IH]; intros f; simpl; [rewrite orb_false_r; reflexivity|].
  rewrite IH. destruct (p r), f; reflexivity.
Qed.

Lemma queries_of_app l1 l2 : queries_of (l1 ++ l2) = queries_of l1 ++ queries_of l2.
Proof. unfold queries_of. apply flat_map_app. Qed.

Lemma recorded_rev_rev evs : recorded_rev (rev evs) = rev (calls_of evs).
Proof.
  induction evs as [|ev evs IH]; simpl; [reflexivity|].
  rewrite recorded_rev_app, IH. destruct ev; simpl; rewrite ?app_nil_r; reflexivity.
Qed.

Lemma queries_rev_rev evs : queries_rev (rev evs) = rev (queries_of evs).
Proof.
  induction evs as [|ev evs IH]; simpl; [reflexivity|].
  rewrite queries_rev_app, IH. destruct ev; simpl; rewrite ?app_nil_r; reflexivity.
Qed.

Lemma calls_of_fwd address rrtype rrn l :
  calls_of (flat_map (fwd_events address rrtype rrn) l) = stale_forward address rrtype rrn l.
Proof.
  induction l as [|r l IH]; simpl; [reflexivity|].
  rewrite calls_of_app, IH. unfold fwd_events.
  destruct (String.eqb r address); [reflexivity|].
  destruct (from_address r); reflexivity.
Qed.

Lemma queries_of_fwd address rrtype rrn l :
  queries_of (flat_map (fwd_events address rrtype rrn) l) = [].
Proof.
  induction l as [|r l IH]; simpl; [reflexivity|].
  rewrite queries_of_app, IH. unfold fwd_events.
  destruct (String.eqb r address); [reflexivity|].
  destruct (from_address r); reflexivity.
Qed.

Lemma calls_of_ptr address rrtype revname keep m :
  calls_of (flat_map (ptr_events address rrtype revname keep) m)
  = stale_reverse address rrtype revname keep m.
Proof.
  induction m as [|r m IH]; simpl; [reflexivity|].
  rewrite calls_of_app, IH. unfold ptr_events. destruct (keep r); reflexivity.
Qed.

Lemma queries_of_ptr address rrtype revname keep m :
  queries_of (flat_map (ptr_events address rrtype revname keep) m) = [].
Proof.
  induction m as [|r m IH]; simpl; [reflexivity|].
  rewrite queries_of_app, IH. unfold ptr_events. destruct (keep r); reflexivity.
Qed.

Lemma parse_rrname_some t n : t <> "" -> from_text t = Some n -> parse_rrname (Some t) = ret (Some n).
Proof. intros Hne Ht. apply String.eqb_neq in Hne. unfold parse_rrname. rewrite Hne, Ht. reflexivity. Qed.

Lemma parse_rrname_none nm : name_truthy nm = false -> parse_rrname nm = ret None.
Proof.
  destruct nm as [t|]; simpl; [|reflexivity]. intros H.
  destruct (String.eqb t "") eqn:E; [reflexivity|discriminate].
Qed.

(** The events of a successful [update_dns] run after [begin()]. *)
Definition ptr_keep (rrname : option name) (r : name) : bool :=
  match rrname with Some rrn => name_eqb r rrn | None => false end.

Definition update_events (e : env) (address : string) (revname : name) (rrname : option name)
    (l : list string) (m : list name) : list event :=
  let rrtype := rrtype_of revname in
  match rrname with
  | Some rrn =>
      EvQuery rrn rrtype :: flat_map (fwd_events address rrtype rrn) l ++
      (if existsb (fun r => String.eqb r address) l then []
       else [EvRecord (add_call rrn (ttl e) rrtype address)])
  | None => []
  end ++
  EvQuery revname "PTR" :: flat_map (ptr_events address rrtype revname (ptr_keep rrname)) m ++
  match rrname with
  | Some rrn =>
      if existsb (ptr_keep rrname) m then []
      else [EvRecord (add_call revname (ttl e) "PTR" (to_text rrn))]
  | None => []
  end.

Lemma fwd_body_emits e address revname rrn f r :
  r = address \/ from_address r <> None ->
  emits (zones e)
    (if String.eqb r address then ret true
     else
       record_m (zones e) (delete_call rrn (rrtype_of revname) (Some r)) ;;
       other <- parse (from_address r) ;;
       record_m (zones e) (delete_call other "PTR" (Some (to_text rrn))) ;;
       ret f)
    (Ok (if String.eqb r address then true else f))
    (fwd_events address (rrtype_of revname) rrn r).
Proof.
  intros Hgood. unfold fwd_events.
  destruct (String.eqb r address) eqn:E; [apply emits_ret|].
  destruct Hgood as [Hra|Hra]; [apply String.eqb_neq in E; contradiction|].
  destruct (from_address r) as [other|]; [|contradiction].
  eapply emits_eq; [|eapply emits_bind; [apply emits_record|];
    eapply emits_bind; [apply emits_ret|];
    eapply emits_bind; [apply emits_record|]; apply emits_ret].
  reflexivity.
Qed.

Lemma fwd_body_fails e address revname rrn f r :
  r <> address -> from_address r = None ->
  emits (zones e)
    (if String.eqb r address then ret true
     else
       record_m (zones e) (delete_call rrn (rrtype_of revname) (Some r)) ;;
       other <- parse (from_address r) ;;
       record_m (zones e) (delete_call other "PTR" (Some (to_text rrn))) ;;
       ret f)
    (Err ValidationFailure)
    [EvRecord (delete_call rrn (rrtype_of revname) (Some r))].
Proof.
  intros Hne Hr. apply String.eqb_neq in Hne. rewrite Hne, Hr.
  eapply emits_eq; [|eapply emits_bind; [apply emits_record|];
    apply emits_bind_err; apply emits_parse_none].
  reflexivity.
Qed.

Lemma ptr_body_emits e address revname rrname f r :
  emits (zones e)
    (let stale :=
       record_m (zones e) (delete_call revname "PTR" (Some (to_text r))) ;;
       record_m (zones e) (delete_call r (rrtype_of revname) (Some address)) ;;
       ret f in
     match rrname with
     | Some rrn => if name_eqb r rrn then ret true else stale
     | None => stale
     end)
    (Ok (if ptr_keep rrname r then true else f))
    (ptr_events address (rrtype_of revname) revname (ptr_keep rrname) r).
Proof.
  unfold ptr_events. cbv zeta.
  assert (Hst : emits (zones e)
    (record_m (zones e) (delete_call revname "PTR" (Some (to_text r))) ;;
     record_m (zones e) (delete_call r (rrtype_of revname) (Some address)) ;;
     ret f) (Ok f)
    [EvRecord (delete_call revname "PTR" (Some (to_text r)));
     EvRecord (delete_call r (rrtype_of revname) (Some address))]).
  { eapply emits_eq; [|eapply emits_bind; [apply emits_record|];
      eapply emits_bind; [apply emits_record|]; apply emits_ret].
    reflexivity. }
  destruct rrname as [rrn|]; simpl; [|exact Hst].
  destruct (name_eqb r rrn); [apply emits_ret|exact Hst].
Qed.

Lemma update_dns_run e address nm revname rrname l m s :
  from_address address = Some revname -> parse_rrname nm = ret rrname ->
  match rrname with
  | Some rrn => answers (fwd_query e rrn (rrtype_of revname)) l /\
                Forall (fun r => r = address \/ from_address r <> None) l
  | None => True
  end ->
  answers (ptr_query e revname) m ->
  let b := build (zones e) (calls_of (update_events e address revname rrname l m)) in
  update_dns e address nm s =
  (Ok tt, mk_state (Some b) (rev (map ev_commit b) ++
                             rev (update_events e address revname rrname l m) ++
                             EvBegin :: st_log s)).
Proof.
  intros Ha Hr Hf Hp b. unfold update_dns. rewrite Ha. cbn [parse]. rewrite bind_ret, Hr, bind_ret.
  cbv zeta.
  change (bind begin_m ?k s) with (k tt (mk_state (Some begin_batch) (EvBegin :: st_log s))).
  cbv beta.
  match goal with |- bind ?X _ _ = _ =>
    assert (HX : emits (zones e) X (Ok tt)
      match rrname with
      | Some rrn =>
          EvQuery rrn (rrtype_of revname) ::
          flat_map (fwd_events address (rrtype_of revname) rrn) l ++
          (if existsb (fun r => String.eqb r address) l then []
           else [EvRecord (add_call rrn (ttl e) (rrtype_of revname) address)])
      | None => []
      end) end.
  { destruct rrname as [rrn|]; [|apply emits_ret].
    destruct Hf as [Hf Hgood].
    change (EvQuery ?a ?t :: ?rest) with ([EvQuery a t] ++ rest).
    eapply emits_bind; [apply emits_query; exact Hf|].
    eapply emits_bind;
      [apply (emits_for_found _ _ _ _ _ _ (fun f r Hin => fwd_body_emits e address revname rrn f r
                                              (proj1 (Forall_forall _ l) Hgood r Hin)))|].
    rewrite fold_left_found. simpl.
    destruct (existsb _ l); simpl; [apply emits_ret|apply emits_record]. }
  erewrite (emits_run _ _ _ _ _ _ _ HX) by reflexivity.
  erewrite (emits_run _ _ _ _ _ _ _ (emits_query _ revname "PTR" _ m Hp)) by reflexivity.
  erewrite (emits_run _ _ _ _ _ _ _ (emits_for_found _ _ false _ _ _ (fun f r _ => ptr_body_emits e address revname rrname f r))) by reflexivity.
  rewrite fold_left_found. simpl orb.
  match goal with |- bind ?Y _ _ = _ =>
    assert (HY : emits (zones e) Y (Ok tt)
      match rrname with
      | Some rrn =>
          if existsb (ptr_keep rrname) m then []
          else [EvRecord (add_call revname (ttl e) "PTR" (to_text rrn))]
      | None => []
      end) end.
  { destruct rrname as [rrn|]; [|apply emits_ret].
    destruct (existsb _ m); simpl; [apply emits_ret|apply emits_record]. }
  erewrite (emits_run _ _ _ _ _ _ _ HY) by reflexivity.
  unfold commit_m. simpl st_ctx. cbv iota.
  unfold b, build, update_events, commit_calls. cbv zeta.
  rewrite !calls_of_app. change (calls_of (EvQuery ?n ?t :: ?r)) with (calls_of r).
  rewrite !calls_of_app, !fold_left_app. simpl st_log.
  rewrite !rev_app_distr. cbn [rev]. rewrite ?rev_app_distr, <- !app_assoc. reflexivity.
  Unshelve. exact (zones e).
Qed.

Lemma observe_run b evs :
  recorded (mk_state (Some b) (rev (map ev_commit b) ++ rev evs ++ [EvBegin])) = calls_of evs /\
  queried (mk_state (Some b) (rev (map ev_commit b) ++ rev evs ++ [EvBegin])) = queries_of evs.
Proof.
  destruct (observe_committed_state b (rev evs ++ [EvBegin])) as [Hr [Hq _]].
  rewrite Hr, Hq, recorded_rev_app, queries_rev_app, recorded_rev_rev, queries_rev_rev.
  simpl. rewrite !app_nil_r, !rev_involutive. auto.
Qed.

Lemma calls_of_update_events e address revname rrname l m :
  calls_of (update_events e address revname rrname l m) =
  match rrname with
  | Some rrn =>
      stale_forward address (rrtype_of revname) rrn l ++
      (if existsb (fun r => String.eqb r address) l then []
       else [add_call rrn (ttl e) (rrtype_of revname) address])
  | None => []
  end ++
  stale_reverse address (rrtype_of revname) revname (ptr_keep rrname) m ++
  match rrname with
  | Some rrn =>
      if existsb (ptr_keep rrname) m then []
      else [add_call revname (ttl e) "PTR" (to_text rrn)]
  | None => []
  end.
Proof.
  unfold update_events. cbv zeta. rewrite calls_of_app.
  change (calls_of (EvQuery ?n ?t :: ?r)) with (calls_of r).
  rewrite calls_of_app, calls_of_ptr. f_equal; [|f_equal].
  - destruct rrname as [rrn|]; [|reflexivity].
    change (calls_of (EvQuery ?n ?t :: ?r)) with (calls_of r).
    rewrite calls_of_app, calls_of_fwd. destruct (existsb _ l); reflexivity.
  - destruct rrname as [rrn|]; [|reflexivity]. destruct (existsb _ m); reflexivity.
Qed.

Lemma queries_of_update_events e address revname rrname l m :
  queries_of (update_events e address revname rrname l m) =
  match rrname with Some rrn => [(rrn, rrtype_of revname)] | None => [] end ++
  [(revname, "PTR")].
Proof.
  unfold update_events. cbv zeta. rewrite queries_of_app.
  change (queries_of (EvQuery ?n ?t :: ?r)) with ((n, t) :: queries_of r).
  rewrite queries_of_app, queries_of_ptr. f_equal.
  - destruct rrname as [rrn|]; [|reflexivity].
    change (queries_of (EvQuery ?n ?t :: ?r)) with ((n, t) :: queries_of r).
    rewrite queries_of_app, queries_of_fwd. destruct (existsb _ l); reflexivity.
  - destruct rrname as [rrn|]; [|reflexivity]. destruct (existsb _ m); reflexivity.
Qed.

Lemma update_dns_committed e address nm :
  let rs := update_dns e address nm init_state in
  fst rs = Ok tt -> committed (snd rs) = commit_calls (build (zones e) (recorded (snd rs))).
Proof.
  intros rs H. pose proof (update_dns_post e address nm init_state pre_batch_init) as P.
  unfold post_commit in P. fold rs in P. rewrite H in P. exact P.
Qed.

Lemma update_dns_err_committed e address nm x :
  fst (update_dns e address nm init_state) = Err x ->
  committed (snd (update_dns e address nm init_state)) = [].
Proof.
  intros H. pose proof (update_dns_post e address nm init_state pre_batch_init) as P.
  unfold post_commit in P. rewrite H in P. exact P.
Qed.

(** X1: the complete effect of [update_dns] with a name. *)
Theorem update_dns_reconciles e address t rrname revname l m :
  from_address address = Some revname -> t <> "" -> from_text t = Some rrname ->
  answers (fwd_query e rrname (rrtype_of revname)) l ->
  Forall (fun r => r = address \/ from_address r <> None) l ->
  answers (ptr_query e revname) m ->
  let rrtype := rrtype_of revname in
  let rs := update_dns e address (Some t) init_state in
  fst rs = Ok tt /\
  queried (snd rs) = [(rrname, rrtype); (revname, "PTR")] /\
  recorded (snd rs) =
    stale_forward address rrtype rrname l ++
    (if existsb (fun r => String.eqb r address) l then []
     else [add_call rrname (ttl e) rrtype address]) ++
    stale_reverse address rrtype revname (fun r => name_eqb r rrname) m ++
    (if existsb (fun r => name_eqb r rrname) m then []
     else [add_call revname (ttl e) "PTR" (to_text rrname)]) /\
  committed (snd rs) = commit_calls (build (zones e) (recorded (snd rs))).
Proof.
  intros Ha Hne Ht Hf Hgood Hp rrtype rs.
  pose proof (update_dns_committed e address (Some t)) as Hc. cbv zeta in Hc. fold rs in Hc.
  pose proof (update_dns_run e address (Some t) revname (Some rrname) l m init_state Ha
                (parse_rrname_some _ _ Hne Ht) (conj Hf Hgood) Hp) as Hrun.
  cbv zeta in Hrun. fold rs in Hrun.
  destruct (observe_run (build (zones e) (calls_of (update_events e address revname (Some rrname) l m)))
              (update_events e address revname (Some rrname) l m)) as [Hr Hq].
  assert (Hok : fst rs = Ok tt) by (rewrite Hrun; reflexivity).
  split; [exact Hok|]. split; [|split; [|exact (Hc Hok)]]; rewrite Hrun; cbn [snd st_log init_state].
  - rewrite Hq, queries_of_update_events. reflexivity.
  - rewrite Hr, calls_of_update_events, <- !app_assoc. reflexivity.
Qed.

Lemma stale_reverse_deletes address rrtype revname keep m :
  Forall (fun c => rc_action c = Delete) (stale_reverse address rrtype revname keep m).
Proof.
  induction m as [|r m IH]; simpl; [constructor|].
  apply Forall_app. split; [|exact IH]. destruct (keep r); repeat constructor.
Qed.

(** X2: [update_dns] without a name deletes every PTR record of the
    address and the matching forward records, and adds nothing. *)
Theorem update_dns_without_name_deletes_ptrs e address nm revname m :
  name_truthy nm = false -> from_address address = Some revname ->
  answers (ptr_query e revname) m ->
  let rs := update_dns e address nm init_state in
  fst rs = Ok tt /\
  queried (snd rs) = [(revname, "PTR")] /\
  recorded (snd rs) = stale_reverse address (rrtype_of revname) revname (fun _ => false) m /\
  Forall (fun c => rc_action c = Delete) (recorded (snd rs)) /\
  committed (snd rs) = commit_calls (build (zones e) (recorded (snd rs))).
Proof.
  intros Hn Ha Hp rs.
  pose proof (update_dns_committed e address nm) as Hc. cbv zeta in Hc. fold rs in Hc.
  pose proof (update_dns_run e address nm revname None [] m init_state Ha
                (parse_rrname_none nm Hn) I Hp) as Hrun.
  cbv zeta in Hrun. fold rs in Hrun.
  destruct (observe_run (build (zones e) (calls_of (update_events e address revname None [] m)))
              (update_events e address revname None [] m)) as [Hr Hq].
  assert (Hok : fst rs = Ok tt) by (rewrite Hrun; reflexivity).
  assert (Hrec : recorded (snd rs) = stale_reverse address (rrtype_of revname) revname (fun _ => false) m).
  { rewrite Hrun. cbn [snd st_log init_state]. rewrite Hr, calls_of_update_events.
    simpl. rewrite app_nil_r. reflexivity. }
  split; [exact Hok|]. split; [|split; [exact Hrec|split; [|exact (Hc Hok)]]].
  - rewrite Hrun. cbn [snd st_log init_state]. rewrite Hq, queries_of_update_events. reflexivity.
  - rewrite Hrec. apply stale_reverse_deletes.
Qed.

Lemma emits_run_err {A B} zones (m : M A) (k : A -> M B) x evs s b :
  emits zones m (Err x) evs -> st_ctx s = Some b ->
  bind m k s = (Err x, mk_state (Some (fold_left (record zones) (calls_of evs) b)) (rev evs ++ st_log s)).
Proof. intros H Hs. unfold bind. rewrite (H s b Hs). reflexivity. Qed.

(** X3: a forward record whose address has no reverse name makes
    [update_dns] raise; nothing is committed. *)
Theorem update_dns_unmappable_forward_aborts e address t rrname revname l :
  from_address address = Some revname -> t <> "" -> from_text t = Some rrname ->
  answers (fwd_query e rrname (rrtype_of revname)) l ->
  (exists r, In r l /\ r <> address /\ from_address r = None) ->
  fst (update_dns e address (Some t) init_state) = Err ValidationFailure /\
  committed (snd (update_dns e address (Some t) init_state)) = [].
Proof.
  intros Ha Hne Ht Hf [r0 [Hin [Hr0a Hr0]]].
  assert (H : fst (update_dns e address (Some t) init_state) = Err ValidationFailure).
  { unfold update_dns. rewrite Ha. cbn [parse]. rewrite bind_ret, (parse_rrname_some _ _ Hne Ht), bind_ret.
    cbv zeta.
    change (bind begin_m ?k init_state)
      with (k tt (mk_state (Some begin_batch) (EvBegin :: st_log init_state))).
    cbv beta.
    match goal with |- fst (bind ?X _ _) = _ =>
      assert (HX : exists evs, emits (zones e) X (Err ValidationFailure) evs) end.
    { destruct (emits_for_found_err (zones e) l false
        (fun found r =>
           if String.eqb r address then ret true
           else
             record_m (zones e) (delete_call rrname (rrtype_of revname) (Some r)) ;;
             other <- parse (from_address r) ;;
             record_m (zones e) (delete_call other "PTR" (Some (to_text rrname))) ;;
             ret found)
        (fun r => r = address \/ from_address r <> None)
        (fun r => r <> address /\ from_address r = None) ValidationFailure) as [evs He].
      - intros r _. destruct (String.eqb r address) eqn:E.
        + left. left. apply String.eqb_eq. exact E.
        + destruct (from_address r) eqn:F.
          * left. right. discriminate.
          * right. split; [apply String.eqb_neq; exact E|reflexivity].
      - exists r0. auto.
      - intros f r Hg. eexists. eexists. apply fwd_body_emits. exact Hg.
      - intros f r [Hra Hrn]. eexists. apply fwd_body_fails; assumption.
      - exists ([EvQuery rrname (rrtype_of revname)] ++ evs).
        eapply emits_bind; [apply emits_query; exact Hf|].
        apply emits_bind_err. exact He. }
    destruct HX as [evs HX].
    erewrite (emits_run_err _ _ _ _ _ _ _ HX) by reflexivity. reflexivity. }
  split; [exact H|]. exact (update_dns_err_committed _ _ _ _ H).
Qed.

(** X4: a query failing with an error other than [NXDOMAIN]/[NoAnswer]
    makes [update_dns] raise; nothing is committed. *)
Theorem update_dns_query_error_aborts e address nm revname :
  from_address address = Some revname ->
  (exists t rrn, nm = Some t /\ t <> "" /\ from_text t = Some rrn /\
     (fwd_query e rrn (rrtype_of revname) = QError \/
      (ptr_query e revname = QError /\
       exists l, answers (fwd_query e rrn (rrtype_of revname)) l /\
                 Forall (fun r => r = address \/ from_address r <> None) l))) \/
  (name_truthy nm = false /\ ptr_query e revname = QError) ->
  fst (update_dns e address nm init_state) = Err QueryFailure /\
  committed (snd (update_dns e address nm init_state)) = [].
Proof.
  intros Ha Hcase.
  assert (H : fst (update_dns e address nm init_state) = Err QueryFailure).
  { assert (Hrr : exists rrname, parse_rrname nm = ret rrname /\
      match rrname with
      | Some rrn => fwd_query e rrn (rrtype_of revname) = QError \/
                    (ptr_query e revname = QError /\
                     exists l, answers (fwd_query e rrn (rrtype_of revname)) l /\
                               Forall (fun r => r = address \/ from_address r <> None) l)
      | None => ptr_query e revname = QError
      end).
    { destruct Hcase as [[t [rrn [-> [Hne [Ht Hq]]]]] | [Hn Hq]].
      - exists (Some rrn). split; [apply parse_rrname_some|]; assumption.
      - exists None. split; [apply parse_rrname_none|]; assumption. }
    destruct Hrr as [rrname [Hr Hq]].
    unfold update_dns. rewrite Ha. cbn [parse]. rewrite bind_ret, Hr, bind_ret.
    cbv zeta.
    change (bind begin_m ?k init_state)
      with (k tt (mk_state (Some begin_batch) (EvBegin :: st_log init_state))).
    cbv beta.
    assert (Hptr_err : forall s b (K : list name -> M unit), st_ctx s = Some b ->
              ptr_query e revname = QError ->
              fst (bind (mptr e revname) K s) = Err QueryFailure).
    { intros s b K Hs Hpq. unfold mptr. rewrite Hpq.
      rewrite (emits_run_err _ _ _ _ _ _ _ (emits_query_err (zones e) revname "PTR") Hs).
      reflexivity. }
    destruct rrname as [rrn|].
    - destruct Hq as [Hfq | [Hpq [l [Hf Hgood]]]].
      + unfold mfwd at 1. rewrite Hfq.
        erewrite (emits_run_err _ _ _ _ _ _ _
                    (emits_bind_err _ _ _ _ _ (emits_query_err (zones e) rrn (rrtype_of revname))))
          by reflexivity.
        reflexivity.
      + match goal with |- fst (bind ?X _ _) = _ =>
          assert (HX : emits (zones e) X (Ok tt)
            (EvQuery rrn (rrtype_of revname) ::
             flat_map (fwd_events address (rrtype_of revname) rrn) l ++
             (if existsb (fun r => String.eqb r address) l then []
              else [EvRecord (add_call rrn (ttl e) (rrtype_of revname) address)]))) end.
        { change (EvQuery ?a ?t :: ?rest) with ([EvQuery a t] ++ rest).
          eapply emits_bind; [apply emits_query; exact Hf|].
          eapply emits_bind;
            [apply (emits_for_found _ _ _ _ _ _ (fun f r Hin => fwd_body_emits e address revname rrn f r
                                                    (proj1 (Forall_forall _ l) Hgood r Hin)))|].
          rewrite fold_left_found. simpl.
          destruct (existsb _ l); simpl; [apply emits_ret|apply emits_record]. }
        erewrite (emits_run _ _ _ _ _ _ _ HX) by reflexivity.
        eapply Hptr_err; [reflexivity|exact Hpq].
    - eapply Hptr_err; [reflexivity|exact Hq]. }
  split; [exact H|]. exact (update_dns_err_committed _ _ _ _ H).
Qed.

(** The shape of the record calls the entry points make. *)
Definition call_shape (e : env) (ev : event) : Prop :=
  match ev with
  | EvRecord c =>
      (rc_action c = Delete /\ exists t d, rc_args c = [PStr t; PStr d]) \/
      (rc_action c = Add /\ exists rest, rc_args c = PInt (ttl e) :: rest)
  | _ => True
  end.

(** X5: the entry points never use [replace]; every delete names the
    record data it removes (never a whole RRset), and every add carries the
    configured TTL. *)
Theorem entry_points_call_shape e address nm :
  Forall (fun c => rc_action c <> Replace /\
                   (rc_action c = Delete -> exists t d, rc_args c = [PStr t; PStr d]) /\
                   (rc_action c = Add -> exists rest, rc_args c = PInt (ttl e) :: rest))
    (recorded (snd (update_dns e address nm init_state)) ++
     recorded (snd (delete_dns e address nm init_state))).
Proof.
  assert (H0 : log_inv (call_shape e) init_state) by constructor.
  assert (Hu : log_inv (call_shape e) (snd (update_dns e address nm init_state))).
  { assert (K : keeps (log_inv (call_shape e)) (update_dns e address nm)).
    { unfold update_dns. keeps_log; simpl; eauto 6. }
    exact (K _ H0). }
  assert (Hd : log_inv (call_shape e) (snd (delete_dns e address nm init_state))).
  { assert (K : keeps (log_inv (call_shape e)) (delete_dns e address nm)).
    { unfold delete_dns. keeps_log; simpl; eauto 6. }
    exact (K _ H0). }
  assert (Himp : forall c, call_shape e (EvRecord c) ->
            rc_action c <> Replace /\
            (rc_action c = Delete -> exists t d, rc_args c = [PStr t; PStr d]) /\
            (rc_action c = Add -> exists rest, rc_args c = PInt (ttl e) :: rest)).
  { intros c [[Hd' Ha]|[Ha Hr]]; rewrite ?Hd', ?Ha;
      (split; [discriminate|split; intros Hx; [|]]); try discriminate; auto. }
  apply Forall_app. split; eapply Forall_impl; try exact Himp; apply recorded_log_inv; assumption.
Qed.


(** *** Concrete runs of the properties above *)

(** DNS data whose forward queries all fail with a server error. *)
Definition env_failing : env :=
  mk_env [root] 3600%Z (fun _ _ => QError) (fun _ => QNXDOMAIN).

Lemma update_dns_reconciles_witness :
  from_address "1.2.3.4" = Some rev_1_2_3_4 /\ "h.example.com." <> "" /\
  from_text "h.example.com." = Some h_example /\
  answers (fwd_query (env_bound "9.9.9.9" rev_9_9_9_9) h_example (rrtype_of rev_1_2_3_4))
    ["9.9.9.9"] /\
  Forall (fun r => r = "1.2.3.4" \/ from_address r <> None) ["9.9.9.9"] /\
  answers (ptr_query (env_bound "9.9.9.9" rev_9_9_9_9) rev_1_2_3_4) [] /\
  fst (update_dns (env_bound "9.9.9.9" rev_9_9_9_9) "1.2.3.4" (Some "h.example.com.")
         init_state) = Ok tt.
Proof.
  assert (H1 : from_address "1.2.3.4" = Some rev_1_2_3_4) by (vm_compute; reflexivity).
  assert (H2 : "h.example.com." <> "") by discriminate.
  assert (H3 : from_text "h.example.com." = Some h_example) by (vm_compute; reflexivity).
  assert (H4 : answers (fwd_query (env_bound "9.9.9.9" rev_9_9_9_9) h_example
                          (rrtype_of rev_1_2_3_4)) ["9.9.9.9"]) by (vm_compute; reflexivity).
  assert (H5 : Forall (fun r => r = "1.2.3.4" \/ from_address r <> None) ["9.9.9.9"]).
  { constructor; [right; intro Hc; vm_compute in Hc; discriminate Hc | constructor]. }
  assert (H6 : answers (ptr_query (env_bound "9.9.9.9" rev_9_9_9_9) rev_1_2_3_4) [])
    by (vm_compute; reflexivity).
  repeat (split; [assumption|]).
  exact (proj1 (update_dns_reconciles _ _ _ _ _ _ _ H1 H2 H3 H4 H5 H6)).
Defined.

Lemma update_dns_without_name_deletes_ptrs_witness :
  name_truthy None = false /\ from_address "1.2.3.4" = Some rev_1_2_3_4 /\
  answers (ptr_query (env_bound "1.2.3.4" rev_1_2_3_4) rev_1_2_3_4) [h_example] /\
  fst (update_dns (env_bound "1.2.3.4" rev_1_2_3_4) "1.2.3.4" None init_state) = Ok tt.
Proof.
  assert (H1 : name_truthy None = false) by reflexivity.
  assert (H2 : from_address "1.2.3.4" = Some rev_1_2_3_4) by (vm_compute; reflexivity).
  assert (H3 : answers (ptr_query (env_bound "1.2.3.4" rev_1_2_3_4) rev_1_2_3_4) [h_example])
    by (vm_compute; reflexivity).
  repeat (split; [assumption|]).
  exact (proj1 (update_dns_without_name_deletes_ptrs _ _ _ _ _ H1 H2 H3)).
Defined.

Lemma update_dns_unmappable_forward_aborts_witness :
  from_address "1.2.3.4" = Some rev_1_2_3_4 /\ "h.example.com." <> "" /\
  from_text "h.example.com." = Some h_example /\
  answers (fwd_query (env_bound "bogus" rev_9_9_9_9) h_example (rrtype_of rev_1_2_3_4))
    ["bogus"] /\
  (exists r, In r ["bogus"] /\ r <> "1.2.3.4" /\ from_address r = None) /\
  fst (update_dns (env_bound "bogus" rev_9_9_9_9) "1.2.3.4" (Some "h.example.com.")
         init_state) = Err ValidationFailure.
Proof.
  assert (H1 : from_address "1.2.3.4" = Some rev_1_2_3_4) by (vm_compute; reflexivity).
  assert (H2 : "h.example.com." <> "") by discriminate.
  assert (H3 : from_text "h.example.com." = Some h_example) by (vm_compute; reflexivity).
  assert (H4 : answers (fwd_query (env_bound "bogus" rev_9_9_9_9) h_example
                          (rrtype_of rev_1_2_3_4)) ["bogus"]) by (vm_compute; reflexivity).
  assert (H5 : exists r, In r ["bogus"] /\ r <> "1.2.3.4" /\ from_address r = None).
  { exists "bogus". split; [left; reflexivity|]. split; [discriminate|].
    vm_compute; reflexivity. }
  repeat (split; [assumption|]).
  exact (proj1 (update_dns_unmappable_forward_aborts _ _ _ _ _ _ H1 H2 H3 H4 H5)).
Defined.

Lemma update_dns_query_error_aborts_witness :
  from_address "1.2.3.4" = Some rev_1_2_3_4 /\
  fwd_query env_failing h_example (rrtype_of rev_1_2_3_4) = QError /\
  fst (update_dns env_failing "1.2.3.4" (Some "h.example.com.") init_state)
    = Err QueryFailure.
Proof.
  assert (H1 : from_address "1.2.3.4" = Some rev_1_2_3_4) by (vm_compute; reflexivity).
  assert (H2 : fwd_query env_failing h_example (rrtype_of rev_1_2_3_4) = QError)
    by reflexivity.
  split; [exact H1|]. split; [exact H2|].
  refine (proj1 (update_dns_query_error_aborts env_failing "1.2.3.4" (Some "h.example.com.")
                   rev_1_2_3_4 H1 _)).
  left. exists "h.example.com.", h_example.
  split; [reflexivity|]. split; [discriminate|]. split; [vm_compute; reflexivity|].
  left. exact H2.
Defined.
(** ** Address parsing: [dns.reversename.from_address] on IPv4 text *)

Definition ascii_digits : list ascii := map (fun k => ascii_of_nat (48 + k)) (seq 0 10).

(** [ipv4_part] accepts a part only in the form ['%d'] prints it. *)
Definition ipv4_part_canon (p : string) : bool :=
  match ipv4_part p with
  | Some v => String.eqb (decimal v) p
  | None => true
  end.

(** A byte printed by ['%d'] parses back and holds no dot. *)
Definition decimal_ok (n : nat) : bool :=
  match ipv4_part (decimal n) with Some m => Nat.eqb m n | None => false end &&
  forallb (fun c => negb (Ascii.eqb c ".")) (list_ascii_of_string (decimal n)).

Lemma decimal_ok_all : forallb decimal_ok (seq 0 256) = true.
Proof. vm_compute. reflexivity. Qed.

Lemma decimal_ok_byte n : n <= 255 -> ipv4_part (decimal n) = Some n /\
  ~ In "."%char (list_ascii_of_string (decimal n)).
Proof.
  intros Hn. pose proof decimal_ok_all as H. rewrite forallb_forall in H.
  specialize (H n). rewrite in_seq in H. specialize (H ltac:(lia)).
  unfold decimal_ok in H. apply andb_prop in H. destruct H as [H1 H2].
  split.
  - destruct (ipv4_part (decimal n)) as [m|]; [|discriminate]. apply Nat.eqb_eq in H1. subst. reflexivity.
  - intros Hin. rewrite forallb_forall in H2. specialize (H2 _ Hin).
    rewrite Ascii.eqb_refl in H2. discriminate.
Qed.

Lemma canon_short :
  forallb (fun c1 => ipv4_part_canon (String c1 EmptyString)) ascii_digits &&
  forallb (fun c1 => forallb (fun c2 => ipv4_part_canon (String c1 (String c2 EmptyString)))
    ascii_digits) ascii_digits &&
  forallb (fun c1 => forallb (fun c2 => forallb (fun c3 =>
    ipv4_part_canon (String c1 (String c2 (String c3 EmptyString))))
    ascii_digits) ascii_digits) ascii_digits = true.
Proof. vm_compute. reflexivity. Qed.

Lemma is_digit_in c : is_digit c = true -> In c ascii_digits.
Proof.
  unfold is_digit. intros H. apply andb_prop in H. destruct H as [H1 H2].
  apply Nat.leb_le in H1. apply Nat.leb_le in H2.
  rewrite <- (ascii_nat_embedding c). unfold ascii_digits.
  replace (nat_of_ascii c) with (48 + (nat_of_ascii c - 48)) by lia.
  apply (in_map (fun k => ascii_of_nat (48 + k))). apply in_seq. lia.
Qed.

Lemma digits_fold_lower cs acc :
  acc * 10 ^ List.length cs <= fold_left (fun acc c => acc * 10 + digit_val c) cs acc.
Proof.
  revert acc. induction cs as [|c cs IH]; intros acc; simpl; [lia|].
  specialize (IH (acc * 10 + digit_val c)). nia.
Qed.

Lemma ipv4_part_inv p v : ipv4_part p = Some v -> v <= 255 /\ p = decimal v.
Proof.
  intros H. assert (Hv : v <= 255).
  { unfold ipv4_part in H. destruct (negb (all_digits p)); [discriminate|].
    destruct (_ && _); [discriminate|].
    destruct (digits_value p <=? 255) eqn:E; [|discriminate].
    injection H as <-. apply Nat.leb_le. exact E. }
  split; [exact Hv|].
  assert (Hc : ipv4_part_canon p = true -> p = decimal v).
  { unfold ipv4_part_canon. rewrite H. intros Hc. apply String.eqb_eq in Hc. auto. }
  apply Hc. clear Hc.
  pose proof canon_short as Hs. apply andb_prop in Hs. destruct Hs as [Hs Hs3].
  apply andb_prop in Hs. destruct Hs as [Hs1 Hs2].
  rewrite forallb_forall in Hs1, Hs2, Hs3.
  unfold ipv4_part in H.
  destruct (all_digits p) eqn:Hd; [|discriminate]. cbn [negb] in H.
  unfold all_digits in Hd. apply andb_prop in Hd. destruct Hd as [Hne Hd].
  rewrite forallb_forall in Hd.
  destruct p as [|c1 [|c2 [|c3 [|c4 rest]]]]; [discriminate| | | |].
  - apply Hs1, is_digit_in, Hd. left; reflexivity.
  - specialize (Hs2 c1 (is_digit_in _ (Hd c1 (or_introl eq_refl)))).
    rewrite forallb_forall in Hs2. apply Hs2, is_digit_in, Hd. right; left; reflexivity.
  - specialize (Hs3 c1 (is_digit_in _ (Hd c1 (or_introl eq_refl)))).
    rewrite forallb_forall in Hs3.
    specialize (Hs3 c2 (is_digit_in _ (Hd c2 (or_intror (or_introl eq_refl))))).
    rewrite forallb_forall in Hs3. apply Hs3, is_digit_in, Hd. right; right; left; reflexivity.
  - exfalso.
    destruct ((1 <? String.length (String c1 (String c2 (String c3 (String c4 rest)))))
              && String.prefix "0" (String c1 (String c2 (String c3 (String c4 rest)))))
      eqn:Hz; [discriminate|].
    destruct (digits_value (String c1 (String c2 (String c3 (String c4 rest)))) <=? 255)
      eqn:Hb; [|discriminate].
    apply Nat.leb_le in Hb.
    assert (H1 : String.prefix "0" (String c1 (String c2 (String c3 (String c4 rest)))) = false).
    { cbn [String.length] in Hz. rewrite andb_true_l in Hz. exact Hz. }
    assert (Hc1 : c1 <> "0"%char).
    { intros ->. cbn in H1. discriminate. }
    assert (Hdg : is_digit c1 = true) by (apply Hd; left; reflexivity).
    assert (Hge : 1 <= digit_val c1).
    { unfold is_digit in Hdg. apply andb_prop in Hdg. destruct Hdg as [Hl _].
      apply Nat.leb_le in Hl. unfold digit_val.
      destruct (Nat.eq_dec (nat_of_ascii c1) 48) as [E|E]; [|lia].
      exfalso. apply Hc1. rewrite <- (ascii_nat_embedding c1), E. reflexivity. }
    unfold digits_value in Hb. cbn [list_ascii_of_string fold_left] in Hb.
    pose proof (digits_fold_lower (list_ascii_of_string rest)
                  ((((0 * 10 + digit_val c1) * 10 + digit_val c2) * 10 + digit_val c3) * 10
                   + digit_val c4)) as Hl.
    assert (1 <= 10 ^ List.length (list_ascii_of_string rest))
      by (apply Nat.neq_0_lt_0, Nat.pow_nonzero; discriminate).
    nia.
Qed.

Lemma split_on_app sep x y :
  ~ In sep (list_ascii_of_string x) ->
  split_on sep (x ++ String sep y) = x :: split_on sep y.
Proof.
  induction x as [|c x IH]; intros Hn; cbn [append split_on].
  - rewrite Ascii.eqb_refl. reflexivity.
  - cbn [list_ascii_of_string In] in Hn.
    rewrite IH by tauto.
    destruct (Ascii.eqb_spec c sep) as [->|_]; [tauto|reflexivity].
Qed.

Lemma split_on_none sep x : ~ In sep (list_ascii_of_string x) -> split_on sep x = [x].
Proof.
  induction x as [|c x IH]; intros Hn; cbn [split_on]; [reflexivity|].
  cbn [list_ascii_of_string In] in Hn. rewrite IH by tauto.
  destruct (Ascii.eqb_spec c sep) as [->|_]; [tauto|reflexivity].
Qed.

Lemma split_on_cons sep s : exists w ws, split_on sep s = w :: ws.
Proof.
  induction s as [|c s [w [ws IH]]]; cbn [split_on]; [eauto|].
  rewrite IH. destruct (Ascii.eqb c sep); eauto.
Qed.

(** [sep.join(text.split(sep)) == text] *)
Lemma join_split_on sep s : join (String sep EmptyString) (split_on sep s) = s.
Proof.
  induction s as [|c s IH]; cbn [split_on]; [reflexivity|].
  destruct (split_on_cons sep s) as [w [ws Hs]]. rewrite Hs in IH |- *.
  destruct (Ascii.eqb_spec c sep) as [->|_].
  - change (join (String sep EmptyString) (EmptyString :: w :: ws))
      with (String sep (join (String sep EmptyString) (w :: ws))).
    rewrite IH. reflexivity.
  - destruct ws as [|w' ws]; cbn [join] in IH |- *; rewrite <- IH; reflexivity.
Qed.

Lemma last_colon_split_none cs : ~ In ":"%char cs -> last_colon_split cs = None.
Proof.
  induction cs as [|c cs IH]; intros Hn; [reflexivity|]. cbn [In] in Hn. cbn [last_colon_split].
  rewrite IH by tauto. destruct (Ascii.eqb_spec c ":") as [->|_]; [tauto|reflexivity].
Qed.

Lemma prefix_first c r s : String.prefix (String c r) s = true -> In c (list_ascii_of_string s).
Proof.
  destruct s as [|c' s]; cbn; [discriminate|].
  destruct (ascii_dec c c'); [left; auto|discriminate].
Qed.

Lemma list_ascii_of_string_of_list cs : list_ascii_of_string (string_of_list_ascii cs) = cs.
Proof. induction cs; cbn; congruence. Qed.

(** Text without a colon is never an IPv6 address (the empty text apart). *)
Lemma ipv6_inet_aton_no_colon text :
  text <> EmptyString -> ~ In ":"%char (list_ascii_of_string text) ->
  ipv6_inet_aton text = None.
Proof.
  intros Hne Hn. unfold ipv6_inet_aton.
  assert (E1 : String.eqb text "::" = false).
  { apply String.eqb_neq. intros ->. apply Hn. left; reflexivity. }
  rewrite E1. unfold v4_ending. rewrite last_colon_split_none by exact Hn.
  assert (E2 : String.prefix "::" text = false).
  { destruct (String.prefix "::" text) eqn:E; [|reflexivity].
    exfalso. apply Hn. exact (prefix_first _ _ _ E). }
  assert (E3 : String.prefix "::" (string_of_list_ascii (rev (list_ascii_of_string text))) = false).
  { destruct (String.prefix "::" (string_of_list_ascii (rev (list_ascii_of_string text)))) eqn:E;
      [|reflexivity].
    exfalso. apply Hn. apply prefix_first in E.
    rewrite list_ascii_of_string_of_list in E. apply in_rev in E. exact E. }
  rewrite E2, E3. rewrite split_on_none by exact Hn. cbn [List.length].
  cbn [canon_chunks]. destruct (String.eqb_spec text "") as [->|_]; [contradiction|].
  destruct (4 <? String.length text); reflexivity.
Qed.

Lemma ipv4_parts_inv ps bs :
  ipv4_parts ps = Some bs -> Forall (fun b => b <= 255) bs /\ ps = map decimal bs.
Proof.
  revert bs. induction ps as [|p ps IH]; intros bs H; cbn in H.
  - injection H as <-. split; constructor.
  - destruct (ipv4_part p) as [v|] eqn:Ep; [|discriminate].
    destruct (ipv4_parts ps) as [vs|]; [|discriminate]. injection H as <-.
    destruct (ipv4_part_inv _ _ Ep) as [Hv ->]. destruct (IH vs eq_refl) as [Hvs ->].
    split; [constructor; assumption|reflexivity].
Qed.

(** X6: on text without a colon, [from_address] accepts exactly the
    dotted quads of four decimal bytes written without leading zeros, and
    maps [a.b.c.d] to [d.c.b.a.in-addr.arpa.]; any other such text (a
    part above 255, a leading zero, fewer or more than four parts) raises. *)
Theorem from_address_ipv4 text n :
  text <> EmptyString -> ~ In ":"%char (list_ascii_of_string text) ->
  from_address text = Some n <->
  exists a b c d, a <= 255 /\ b <= 255 /\ c <= 255 /\ d <= 255 /\
    text = join "." (map decimal [a; b; c; d]) /\
    n = [decimal d; decimal c; decimal b; decimal a; "in-addr"; "arpa"].
Proof.
  intros Hne Hn. unfold from_address. rewrite ipv6_inet_aton_no_colon by assumption.
  unfold ipv4_inet_aton. split.
  - intros H.
    destruct (List.length (split_on "." text) =? 4) eqn:El; [|discriminate].
    destruct (ipv4_parts (split_on "." text)) as [bs|] eqn:Ep; [|discriminate].
    injection H as <-.
    destruct (ipv4_parts_inv _ _ Ep) as [Hb Hps].
    apply Nat.eqb_eq in El. rewrite Hps, length_map in El.
    destruct bs as [|a [|b [|c [|d [|x bs]]]]]; try discriminate.
    inversion Hb as [|? ? Ha Hb1]; inversion Hb1 as [|? ? Hb' Hb2];
      inversion Hb2 as [|? ? Hc Hb3]; inversion Hb3 as [|? ? Hd _]; subst.
    exists a, b, c, d. repeat split; try assumption.
    rewrite <- Hps. symmetry. apply join_split_on.
  - intros [a [b [c [d [Ha [Hb [Hc [Hd [-> ->]]]]]]]]].
    destruct (decimal_ok_byte a Ha) as [Pa Na].
    destruct (decimal_ok_byte b Hb) as [Pb Nb].
    destruct (decimal_ok_byte c Hc) as [Pc Nc].
    destruct (decimal_ok_byte d Hd) as [Pd Nd].
    cbn [map join]. cbn [append].
    rewrite (split_on_app _ _ _ Na), (split_on_app _ _ _ Nb), (split_on_app _ _ _ Nc),
      (split_on_none _ _ Nd).
    cbn [List.length Nat.eqb ipv4_parts]. rewrite Pa, Pb, Pc, Pd. reflexivity.
Qed.

Lemma is_subdomain_app_other p z z' :
  List.length z' = List.length z -> name_eqb z z' = false -> is_subdomain (p ++ z) z' = false.
Proof.
  intros Hl Hz. unfold is_subdomain. rewrite length_app, Hl.
  replace (List.length p + List.length z - List.length z) with (List.length p) by lia.
  rewrite skipn_app, skipn_all, Nat.sub_diag. simpl. rewrite Hz. apply andb_false_r.
Qed.

(** X7: the forward type follows the family of the address text: ["A"]
    for an IPv4 address and for an IPv4-mapped IPv6 address ([::ffff:a.b.c.d]),
    whose reverse names lie under [in-addr.arpa.], and ["AAAA"] for every
    other IPv6 address. *)
Theorem rrtype_by_address_family address revname :
  from_address address = Some revname ->
  rrtype_of revname =
    match ipv6_inet_aton address with
    | Some v6 => if is_mapped v6 then "A" else "AAAA"
    | None => "A"
    end.
Proof.
  unfold from_address, rrtype_of. intros H.
  destruct (ipv6_inet_aton address) as [v6|].
  - destruct (is_mapped v6); injection H as <-.
    + rewrite is_subdomain_app_other by reflexivity. reflexivity.
    + unfold ipv6_reverse_domain. rewrite is_subdomain_app. reflexivity.
  - destruct (ipv4_inet_aton address); [|discriminate]. injection H as <-.
    rewrite is_subdomain_app_other by reflexivity. reflexivity.
Qed.

Lemma list_ascii_of_string_app s1 s2 :
  list_ascii_of_string (s1 ++ s2) = (list_ascii_of_string s1 ++ list_ascii_of_string s2)%list.
Proof. induction s1; cbn; congruence. Qed.

Lemma last_colon_split_app xs ys :
  ~ In ":"%char ys -> last_colon_split (xs ++ ":"%char :: ys) = Some (xs, ys).
Proof.
  intros Hn. induction xs as [|x xs IH]; cbn [app last_colon_split].
  - rewrite last_colon_split_none by exact Hn. reflexivity.
  - rewrite IH. reflexivity.
Qed.

Definition hex_ok (x : nat) : bool :=
  let h := list_ascii_of_string (hex2 x) in
  forallb is_hex h && forallb (fun c => negb (Ascii.eqb c ":")) h &&
  (if list_eq_dec ascii_dec (map lower_ascii h) h then true else false) &&
  Nat.eqb (hex_val (hex_digit (x / 16)) * 16 + hex_val (hex_digit (x mod 16))) x &&
  all_digits (decimal x) && forallb (fun c => negb (Ascii.eqb c ":")) (list_ascii_of_string (decimal x)).
Lemma hex_ok_all : forallb hex_ok (seq 0 256) = true.
Proof. vm_compute. reflexivity. Qed.

Lemma mapped_tail (h1 h2 h3 h4 h5 h6 h7 h8 : ascii) :
  Forall (fun h => is_hex h = true /\ lower_ascii h = h /\ h <> ":"%char) [h1; h2; h3; h4; h5; h6; h7; h8] ->
  let T := ("::ffff:" ++ String h1 (String h2 (String h3 (String h4 (String ":"
              (String h5 (String h6 (String h7 (String h8 EmptyString)))))))))%string in
  (let text3 := if String.prefix "::" T then substring 1 (String.length T) T
                else if String.prefix "::" (string_of_list_ascii (rev (list_ascii_of_string T)))
                then drop_last T else T in
   let chunks := split_on ":" text3 in
   let l := List.length chunks in
   if (8 <? l)%nat then None
   else match canon_chunks l chunks false with
        | None => None
        | Some (canonical, seen_empty) =>
            if (l <? 8)%nat && negb seen_empty then None
            else
              let hex := list_ascii_of_string (String.concat "" canonical) in
              if forallb is_hex hex && (List.length hex =? 32)%nat
              then Some (map lower_ascii hex) else None
        end) =
  Some (list_ascii_of_string "00000000000000000000ffff" ++ [h1; h2; h3; h4; h5; h6; h7; h8]).
Proof.
  intros HF T.
  repeat (let H := fresh in inversion HF as [|? ? H HF']; clear HF; rename HF' into HF;
          destruct H as [? [? ?]]).
  repeat match goal with H : ?h <> ":"%char |- _ =>
    apply Ascii.eqb_neq in H end.
  cbn. repeat match goal with H : _ = _ |- _ => rewrite H end. cbn.
  repeat match goal with H : _ = _ |- _ => rewrite H end. vm_compute. reflexivity.
Qed.

Lemma hex_ok_byte x : x <= 255 ->
  Forall (fun h => is_hex h = true /\ lower_ascii h = h /\ h <> ":"%char)
    [hex_digit (x / 16); hex_digit (x mod 16)] /\
  hex_val (hex_digit (x / 16)) * 16 + hex_val (hex_digit (x mod 16)) = x /\
  all_digits (decimal x) = true /\ ~ In ":"%char (list_ascii_of_string (decimal x)).
Proof.
  intros Hx. pose proof hex_ok_all as H. rewrite forallb_forall in H.
  specialize (H x). rewrite in_seq in H. specialize (H ltac:(lia)).
  unfold hex_ok, hex2 in H. cbn [list_ascii_of_string forallb map] in H.
  repeat match type of H with (_ && _)%bool = true => apply andb_prop in H; destruct H as [H ?] end.
  repeat match goal with H : (_ && _)%bool = true |- _ => apply andb_prop in H; destruct H end.
  repeat match goal with H : negb _ = true |- _ => apply Bool.negb_true_iff in H end.
  repeat match goal with H : Ascii.eqb _ _ = false |- _ => apply Ascii.eqb_neq in H end.
  destruct (list_eq_dec ascii_dec _ _) as [Hl|]; [|discriminate]. injection Hl as Hl1 Hl2.
  repeat split; try assumption; try (repeat constructor; assumption).
  - apply Nat.eqb_eq. assumption.
  - intros Hin. match goal with H : forallb _ (list_ascii_of_string (decimal x)) = true |- _ =>
      rewrite forallb_forall in H; specialize (H _ Hin) end.
    rewrite Ascii.eqb_refl in *. discriminate.
Qed.

Lemma quad_split a b c d : a <= 255 -> b <= 255 -> c <= 255 -> d <= 255 ->
  split_on "." (join "." (map decimal [a; b; c; d])) = map decimal [a; b; c; d] /\
  ipv4_inet_aton (join "." (map decimal [a; b; c; d])) = Some [a; b; c; d].
Proof.
  intros Ha Hb Hc Hd.
  destruct (decimal_ok_byte a Ha) as [Pa Na].
  destruct (decimal_ok_byte b Hb) as [Pb Nb].
  destruct (decimal_ok_byte c Hc) as [Pc Nc].
  destruct (decimal_ok_byte d Hd) as [Pd Nd].
  assert (Hs : split_on "." (join "." (map decimal [a; b; c; d])) = map decimal [a; b; c; d]).
  { cbn [map join]. cbn [append].
    rewrite (split_on_app _ _ _ Na), (split_on_app _ _ _ Nb), (split_on_app _ _ _ Nc),
      (split_on_none _ _ Nd). reflexivity. }
  split; [exact Hs|]. unfold ipv4_inet_aton. rewrite Hs.
  cbn [map List.length Nat.eqb ipv4_parts]. rewrite Pa, Pb, Pc, Pd. reflexivity.
Qed.

Lemma quad_no_colon a b c d : a <= 255 -> b <= 255 -> c <= 255 -> d <= 255 ->
  ~ In ":"%char (list_ascii_of_string (join "." (map decimal [a; b; c; d]))).
Proof.
  intros Ha Hb Hc Hd.
  destruct (hex_ok_byte a Ha) as [_ [_ [_ Na]]].
  destruct (hex_ok_byte b Hb) as [_ [_ [_ Nb]]].
  destruct (hex_ok_byte c Hc) as [_ [_ [_ Nc]]].
  destruct (hex_ok_byte d Hd) as [_ [_ [_ Nd]]].
  cbn [map join]. rewrite !list_ascii_of_string_app. cbn [list_ascii_of_string app].
  assert (Hdot : "."%char <> ":"%char) by discriminate.
  repeat (rewrite in_app_iff; cbn [In]). tauto.
Qed.

Lemma v4_ending_mapped a b c d : a <= 255 -> b <= 255 -> c <= 255 -> d <= 255 ->
  v4_ending ("::ffff:" ++ join "." (map decimal [a; b; c; d])) =
  Some ("::ffff:" ++ hex2 a ++ hex2 b ++ ":" ++ hex2 c ++ hex2 d)%string.
Proof.
  intros Ha Hb Hc Hd. destruct (quad_split a b c d Ha Hb Hc Hd) as [Hs Hq].
  pose proof (quad_no_colon a b c d Ha Hb Hc Hd) as Hn.
  set (q := join "." (map decimal [a; b; c; d])) in *.
  unfold v4_ending. rewrite list_ascii_of_string_app.
  change (list_ascii_of_string "::ffff:" ++ list_ascii_of_string q)%list
    with (([":"; ":"; "f"; "f"; "f"; "f"]%char ++ ":"%char :: list_ascii_of_string q))%list.
  rewrite last_colon_split_app by exact Hn.
  rewrite string_of_list_ascii_of_string, Hs, Hq.
  destruct (hex_ok_byte a Ha) as [_ [_ [Da _]]].
  destruct (hex_ok_byte b Hb) as [_ [_ [Db _]]].
  destruct (hex_ok_byte c Hc) as [_ [_ [Dc _]]].
  destruct (hex_ok_byte d Hd) as [_ [_ [Dd _]]].
  cbn [map List.length Nat.eqb forallb]. rewrite Da, Db, Dc, Dd. reflexivity.
Qed.

Lemma ipv6_inet_aton_mapped a b c d : a <= 255 -> b <= 255 -> c <= 255 -> d <= 255 ->
  ipv6_inet_aton ("::ffff:" ++ join "." (map decimal [a; b; c; d])) =
  Some (list_ascii_of_string "00000000000000000000ffff" ++
        [hex_digit (a / 16); hex_digit (a mod 16); hex_digit (b / 16); hex_digit (b mod 16);
         hex_digit (c / 16); hex_digit (c mod 16); hex_digit (d / 16); hex_digit (d mod 16)]).
Proof.
  intros Ha Hb Hc Hd. unfold ipv6_inet_aton.
  assert (E : String.eqb ("::ffff:" ++ join "." (map decimal [a; b; c; d])) "::" = false)
    by reflexivity.
  rewrite E, (v4_ending_mapped a b c d Ha Hb Hc Hd).
  destruct (hex_ok_byte a Ha) as [Fa _]. destruct (hex_ok_byte b Hb) as [Fb _].
  destruct (hex_ok_byte c Hc) as [Fc _]. destruct (hex_ok_byte d Hd) as [Fd _].
  refine (mapped_tail _ _ _ _ _ _ _ _ _).
  pose proof (Forall_inv Fa). pose proof (Forall_inv (Forall_inv_tail Fa)).
  pose proof (Forall_inv Fb). pose proof (Forall_inv (Forall_inv_tail Fb)).
  pose proof (Forall_inv Fc). pose proof (Forall_inv (Forall_inv_tail Fc)).
  pose proof (Forall_inv Fd). pose proof (Forall_inv (Forall_inv_tail Fd)).
  repeat (constructor; [assumption|]). constructor.
Qed.

(** X8: an IPv4-mapped IPv6 address [::ffff:a.b.c.d] has the same reverse
    name as the IPv4 address [a.b.c.d]: under [in-addr.arpa.], not under
    [ip6.arpa.]. *)
Theorem from_address_mapped_ipv4 a b c d :
  a <= 255 -> b <= 255 -> c <= 255 -> d <= 255 ->
  from_address ("::ffff:" ++ join "." (map decimal [a; b; c; d])) =
  from_address (join "." (map decimal [a; b; c; d])) /\
  from_address (join "." (map decimal [a; b; c; d])) =
  Some [decimal d; decimal c; decimal b; decimal a; "in-addr"; "arpa"].
Proof.
  intros Ha Hb Hc Hd.
  destruct (quad_split a b c d Ha Hb Hc Hd) as [_ Hq].
  assert (Hr : from_address (join "." (map decimal [a; b; c; d])) =
               Some [decimal d; decimal c; decimal b; decimal a; "in-addr"; "arpa"]).
  { unfold from_address. rewrite ipv6_inet_aton_no_colon.
    - rewrite Hq. reflexivity.
    - cbn [map join]. destruct (decimal a); discriminate.
    - exact (quad_no_colon a b c d Ha Hb Hc Hd). }
  split; [|exact Hr]. rewrite Hr.
  unfold from_address. rewrite (ipv6_inet_aton_mapped a b c d Ha Hb Hc Hd).
  destruct (hex_ok_byte a Ha) as [Fa [Va _]]. destruct (hex_ok_byte b Hb) as [Fb [Vb _]].
  destruct (hex_ok_byte c Hc) as [Fc [Vc _]]. destruct (hex_ok_byte d Hd) as [Fd [Vd _]].
  set (hs := [hex_digit (a / 16); hex_digit (a mod 16); hex_digit (b / 16);
              hex_digit (b mod 16); hex_digit (c / 16); hex_digit (c mod 16);
              hex_digit (d / 16); hex_digit (d mod 16)]).
  assert (Hm : is_mapped (list_ascii_of_string "00000000000000000000ffff" ++ hs) = true)
    by reflexivity.
  assert (Hk : skipn 24 (list_ascii_of_string "00000000000000000000ffff" ++ hs) = hs)
    by reflexivity.
  rewrite Hm, Hk. unfold hs. cbn [nibble_bytes]. rewrite Va, Vb, Vc, Vd. reflexivity.
Qed.

(** *** Concrete addresses *)

Lemma from_address_ipv4_witness :
  "10.0.0.1" <> EmptyString /\ ~ In ":"%char (list_ascii_of_string "10.0.0.1") /\
  from_address "10.0.0.1" = Some ["1"; "0"; "0"; "10"; "in-addr"; "arpa"].
Proof.
  assert (H1 : "10.0.0.1" <> EmptyString) by discriminate.
  assert (H2 : ~ In ":"%char (list_ascii_of_string "10.0.0.1")).
  { intros H. cbn in H. repeat (destruct H as [H|H]; [discriminate H|]). exact H. }
  split; [exact H1|]. split; [exact H2|].
  apply (proj2 (from_address_ipv4 "10.0.0.1" _ H1 H2)).
  exists 10, 0, 0, 1. repeat split; try lia; vm_compute; reflexivity.
Defined.

Lemma rrtype_by_address_family_witness :
  from_address "::1" =
    Some (rev (map (fun c => String c EmptyString)
                 (list_ascii_of_string "00000000000000000000000000000001")) ++ ["ip6"; "arpa"]) /\
  rrtype_of (rev (map (fun c => String c EmptyString)
                   (list_ascii_of_string "00000000000000000000000000000001")) ++ ["ip6"; "arpa"])
    = "AAAA".
Proof.
  assert (H : from_address "::1" =
    Some (rev (map (fun c => String c EmptyString)
                 (list_ascii_of_string "00000000000000000000000000000001")) ++ ["ip6"; "arpa"]))
    by (vm_compute; reflexivity).
  split; [exact H|]. rewrite (rrtype_by_address_family _ _ H). vm_compute. reflexivity.
Defined.

Lemma from_address_mapped_ipv4_witness :
  192 <= 255 /\ 0 <= 255 /\ 2 <= 255 /\ 1 <= 255 /\
  from_address "::ffff:192.0.2.1" = from_address "192.0.2.1".
Proof.
  assert (Ha : 192 <= 255) by lia. assert (Hb : 0 <= 255) by lia.
  assert (Hc : 2 <= 255) by lia. assert (Hd : 1 <= 255) by lia.
  repeat (split; [assumption|]).
  exact (proj1 (from_address_mapped_ipv4 192 0 2 1 Ha Hb Hc Hd)).
Defined.

(** ** Name parsing: [dns.name.from_text] and [Name.to_text] *)



Lemma string_length_app s1 s2 : String.length (s1 ++ s2) = String.length s1 + String.length s2.
Proof. induction s1; cbn; congruence. Qed.

Lemma eqb_longer s u : String.length u < String.length s -> String.eqb s u = false.
Proof. intros H. apply String.eqb_neq. intros ->. lia. Qed.


Lemma escapify_cons c r : escapify (String c r) = (escapify (String c EmptyString) ++ escapify r)%string.
Proof.
  cbn [escapify]. destruct (existsb (Ascii.eqb c) escaped_chars); [reflexivity|].
  destruct (_ && _)%bool; [reflexivity|].
  reflexivity.
Qed.

Lemma escape_char_run c rest d t l ls : nat_of_ascii c <= 127 ->
  exists d' t', from_text_loop (list_ascii_of_string (escapify (String c EmptyString)) ++ rest)
                  false d t l ls = from_text_loop rest false d' t' (c :: l) ls.
Proof.
  intros H. destruct c as [b0 b1 b2 b3 b4 b5 b6 b7].
  destruct b7; [exfalso; destruct b0, b1, b2, b3, b4, b5, b6; cbn in H; lia|].
  destruct b0, b1, b2, b3, b4, b5, b6; cbn; eexists; eexists; reflexivity.
Qed.

Lemma string_app_assoc s1 s2 s3 : ((s1 ++ s2) ++ s3)%string = (s1 ++ (s2 ++ s3))%string.
Proof. induction s1; cbn; congruence. Qed.

Lemma escapify_run x rest d t l ls :
  Forall (fun c => nat_of_ascii c <= 127) (list_ascii_of_string x) ->
  exists d' t', from_text_loop (list_ascii_of_string (escapify x) ++ rest) false d t l ls =
                from_text_loop rest false d' t' (rev (list_ascii_of_string x) ++ l) ls.
Proof.
  revert d t l. induction x as [|c r IH]; intros d t l Hx.
  - exists d, t. reflexivity.
  - rewrite escapify_cons, list_ascii_of_string_app, <- app_assoc.
    cbn [list_ascii_of_string] in Hx. inversion Hx as [|? ? Hc Hr]; subst.
    destruct (escape_char_run c (list_ascii_of_string (escapify r) ++ rest) d t l ls Hc)
      as [d1 [t1 E1]].
    rewrite E1. destruct (IH d1 t1 (c :: l) Hr) as [d2 [t2 E2]].
    exists d2, t2. rewrite E2. cbn [list_ascii_of_string rev]. rewrite <- app_assoc. reflexivity.
Qed.

Definition good_label (x : string) : Prop :=
  x <> EmptyString /\ Forall (fun c => nat_of_ascii c <= 127) (list_ascii_of_string x).

Lemma label_run x rest d t ls : good_label x ->
  exists d' t', from_text_loop (list_ascii_of_string (escapify x) ++ ("."%char :: rest)) false d t [] ls =
                from_text_loop rest false d' t' [] (x :: ls).
Proof.
  intros [Hne Hx]. destruct (escapify_run x ("."%char :: rest) d t [] ls Hx) as [d' [t' E]].
  exists d', t'. rewrite E, app_nil_r. cbn [from_text_loop].
  assert (Hc : (127 <? nat_of_ascii ".") = false) by reflexivity. rewrite Hc.
  rewrite Ascii.eqb_refl.
  destruct (rev (list_ascii_of_string x)) eqn:Er.
  - exfalso. apply Hne. destruct x; [reflexivity|]. cbn in Er. destruct (rev _); discriminate.
  - rewrite <- Er, rev_involutive, string_of_list_ascii_of_string. reflexivity.
Qed.

Lemma names_run n d t ls : n <> [] -> Forall good_label n ->
  from_text_loop (list_ascii_of_string (join "." (map escapify n) ++ ".")) false d t [] ls =
  Some (false, [], rev n ++ ls).
Proof.
  revert d t ls. induction n as [|x xs IH]; intros d t ls Hn Hg; [contradiction|].
  inversion Hg as [|? ? Hx Hxs]; subst.
  destruct xs as [|y ys].
  - cbn [map join]. rewrite list_ascii_of_string_app. cbn [list_ascii_of_string].
    destruct (label_run x [] d t ls Hx) as [d' [t' E]]. rewrite E. reflexivity.
  - change (join "." (map escapify (x :: y :: ys)))
      with (escapify x ++ "." ++ join "." (map escapify (y :: ys)))%string.
    rewrite string_app_assoc, list_ascii_of_string_app. cbn [list_ascii_of_string append].
    destruct (label_run x (list_ascii_of_string (join "." (map escapify (y :: ys)) ++ "."))
                d t ls Hx) as [d' [t' E]].
    rewrite E, IH by (try discriminate; exact Hxs).
    cbn [rev]. rewrite <- !app_assoc. reflexivity.
Qed.

Lemma escapify_nonempty x : x <> EmptyString -> 1 <= String.length (escapify x).
Proof.
  destruct x as [|c r]; [contradiction|]. intros _. cbn [escapify]. cbv zeta.
  repeat match goal with |- context [if ?b then _ else _] => destruct b end; cbn; lia.
Qed.

(** X10: [to_text] and [from_text] are inverse on the names the code
    handles: for a name whose labels are non-empty ASCII strings and whose
    lengths [Name] accepts, [from_text(n.to_text()) == n], so the PTR data
    [update_dns] writes ([rrname.to_text()]) reads back as the name. *)
Theorem from_text_to_text n :
  Forall good_label n -> valid_labels n = true -> from_text (to_text n) = Some n.
Proof.
  intros Hg Hv. destruct n as [|x xs]; [reflexivity|].
  unfold to_text, from_text.
  assert (Hl : 2 <= String.length (join "." (map escapify (x :: xs)) ++ ".")).
  { rewrite string_length_app. cbn [String.length].
    inversion Hg as [|? ? [Hx _] _]; subst.
    pose proof (escapify_nonempty x Hx).
    destruct xs as [|y ys]; cbn [map join]; [lia|].
    rewrite string_length_app. lia. }
  rewrite (eqb_longer _ "@"), (eqb_longer _ ""), (eqb_longer _ ".")
    by (cbn [String.length]; lia).
  cbn [orb]. rewrite (names_run (x :: xs) 0 0 [] ltac:(discriminate) Hg), app_nil_r.
  rewrite rev_involutive, Hv. reflexivity.
Qed.

(** *** Concrete names *)


Lemma from_text_to_text_witness :
  Forall good_label h_example /\ valid_labels h_example = true /\
  from_text (to_text h_example) = Some h_example.
Proof.
  assert (Hg : Forall good_label h_example).
  { unfold h_example, good_label.
    repeat (constructor; [split; [discriminate|cbn; repeat constructor; cbn; lia]|]).
    constructor. }
  assert (Hv : valid_labels h_example = true) by reflexivity.
  split; [exact Hg|]. split; [exact Hv|]. exact (from_text_to_text h_example Hg Hv).
Defined.

(** ** The WSGI entry point: [DNSWebHook.__call__] *)

Module PyFloat.
Import PrimFloat.
(** [bool(f)] for a Python [float]: false only for zero (either sign). *)
Definition truthy (f : float) : bool := negb (eqb f 0%float).
End PyFloat.

(** A value returned by [json.loads]: JSON integers become [int], other
    numbers [float]; an object is a dict, its members in document order. *)
#[local] Set Warnings "-register-all".
Inductive json :=
| JNull
| JBool (b : bool)
| JInt (z : Z)
| JFloat (f : PrimFloat.float)
| JStr (s : string)
| JArr (l : list json)
| JObj (members : list (string * json)).

(** Python truthiness of a decoded value. *)
Definition json_truthy (v : json) : bool :=
  match v with
  | JNull => false
  | JBool b => b
  | JInt z => negb (Z.eqb z 0)
  | JFloat f => PyFloat.truthy f
  | JStr s => negb (String.eqb s "")
  | JArr l => match l with [] => false | _ => true end
  | JObj ms => match ms with [] => false | _ => true end
  end.

(** [v == "s"] for a decoded value and a string literal. *)
Definition json_is_str (v : json) (s : string) : bool :=
  match v with JStr t => String.eqb t s | _ => false end.

(** Lookup in the dict [json.loads] builds: a later duplicate key
    overwrites an earlier one. *)
Fixpoint member_last (k : string) (ms : list (string * json)) : option json :=
  match ms with
  | [] => None
  | (k', v) :: rest =>
      match member_last k rest with
      | Some w => Some w
      | None => if String.eqb k k' then Some v else None
      end
  end.

(** Exceptions that leave [__call__]. *)
Inductive pyexn :=
| PyDns (x : exn)        (* raised by [update_dns] or [delete_dns] *)
| PyKeyError             (* [d[k]] on a dict without [k] *)
| PyTypeError            (* [v[k]] on a value that is not a dict *)
| PyAttributeError       (* [.split] on a value that is not a string *)
| PyValueError           (* [dns.name.from_text] of a value that is not a string *)
| PyDecodeError.         (* [bytes.decode('UTF-8')] or [json.loads] failing *)

Inductive pyresult (A : Type) := POk (a : A) | PRaise (x : pyexn).
Arguments POk {A} a.
Arguments PRaise {A} x.

(** The handler threads the same state as the entry points it calls. *)
Definition H (A : Type) : Type := state -> pyresult A * state.

Definition hret {A} (a : A) : H A := fun s => (POk a, s).

Definition hraise {A} (x : pyexn) : H A := fun s => (PRaise x, s).

Definition hbind {A B} (m : H A) (k : A -> H B) : H B :=
  fun s => match m s with
           | (POk a, s') => k a s'
           | (PRaise x, s') => (PRaise x, s')
           end.

Definition hpure {A} (r : pyresult A) : H A := fun s => (r, s).

(** A call of [update_dns] or [delete_dns] inside the handler. *)
Definition lift_dns (m : M unit) : H unit :=
  fun s => match m s with
           | (Ok a, s') => (POk a, s')
           | (Err x, s') => (PRaise (PyDns x), s')
           end.

(** [v[k]] *)
Definition jget (v : json) (k : string) : pyresult json :=
  match v with
  | JObj ms => match member_last k ms with Some w => POk w | None => PRaise PyKeyError end
  | _ => PRaise PyTypeError
  end.

(** [v.split("/")[0]] *)
Definition address_part (v : json) : pyresult string :=
  match v with
  | JStr a => POk (hd "" (split_on "/" a))
  | _ => PRaise PyAttributeError
  end.

(** [self.update_dns(address, v)] or [self.delete_dns(address, v)] with
    the decoded [dns_name] value [v]: a string or [None] is passed as it
    is; the other falsy values take the code paths of [None] (the name is
    only tested for truthiness there); a truthy non-string first has the
    address parsed ([from_address]), then [from_text(v)] raises. *)
Definition call_with_name (f : env -> string -> option string -> M unit) (e : env)
    (address : string) (v : json) : H unit :=
  match v with
  | JStr s => lift_dns (f e address (Some s))
  | _ =>
      if json_truthy v
      then hbind (lift_dns (_ <- parse (from_address address) ;; ret tt))
                 (fun _ => hraise PyValueError)
      else lift_dns (f e address None)
  end.

(** The WSGI [environ] entries the handler reads; the input stream is the
    request body as sent. *)
Record wsgi_environ := mk_environ {
  request_method : string;
  content_length : option string;
  wsgi_input : string;
  hook_signature : option string }.

(** A [DNSWebHook]: the mapper, the TTL and the DNS data in [env], and the
    API key as bytes ([None] when not given). *)
Record webhook := mk_webhook { hook_env : env; api_key : option string }.

(** [stream.read(n)]: everything for a negative [n], else the first [n]
    bytes. *)
Definition read_input (input : string) (n : Z) : string :=
  if (n <? 0)%Z then input else substring 0 (Z.to_nat n) input.

(** The response: status line and body. *)
Definition response : Type := string * string.

Section Webhook.

(** [int(text)] on a string, [None] where it raises [ValueError]. *)
Variable py_int : string -> option Z.
(** [hmac.new(key=k, msg=m, digestmod=hashlib.sha512).hexdigest()] *)
Variable hmac_sha512_hex : string -> string -> string.
(** [json.loads(b.decode('UTF-8'))], [None] where either raises. *)
Variable json_loads : string -> option json.

(** [int(environ.get('CONTENT_LENGTH', 0))], [0] on [ValueError]. *)
Definition request_body_size (environ : wsgi_environ) : Z :=
  match content_length environ with
  | None => 0%Z
  | Some t => match py_int t with Some n => n | None => 0%Z end
  end.

(** Lines 169-184: decode the body and dispatch on the event. *)
Definition webhook_dispatch (hook : webhook) (request_body : string) : H response :=
  match json_loads request_body with
  | None => hraise PyDecodeError
  | Some body =>
      hbind (hpure (jget body "model")) (fun model =>
      if negb (json_is_str model "ipaddress") then hret ("400 Wrong model", "Wrong model")
      else
      hbind (hpure (jget body "event")) (fun event =>
      hbind (hpure (jget body "data")) (fun data =>
      hbind (if json_is_str event "created" || json_is_str event "updated" then
               hbind (hpure (jget data "address")) (fun a =>
               hbind (hpure (address_part a)) (fun address =>
               hbind (hpure (jget data "dns_name")) (fun nm =>
               call_with_name update_dns (hook_env hook) address nm)))
             else if json_is_str event "deleted" then
               hbind (hpure (jget data "address")) (fun a =>
               hbind (hpure (address_part a)) (fun address =>
               hbind (hpure (jget data "dns_name")) (fun nm =>
               call_with_name delete_dns (hook_env hook) address nm)))
             else hret tt)
        (fun _ => hret ("200 OK", "OK")))))
  end.

(** [DNSWebHook.__call__] *)
Definition webhook_call (hook : webhook) (environ : wsgi_environ) : H response :=
  if negb (String.eqb (request_method environ) "POST")
  then hret ("405 Method not allowed", "Method not allowed")
  else
    let request_body := read_input (wsgi_input environ) (request_body_size environ) in
    match api_key hook with
    | Some k =>
        if String.eqb k "" then webhook_dispatch hook request_body
        else if match hook_signature environ with
                | Some sg => String.eqb sg (hmac_sha512_hex k request_body)
                | None => false
                end
        then webhook_dispatch hook request_body
        else hret ("403 Forbidden", "X-Hook-Signature missing or invalid")
    | None => webhook_dispatch hook request_body
    end.

End Webhook.

(** *** Properties of the handler *)

(** The [dns_name] argument as the entry points see it, for a string or a
    falsy value. *)
Definition name_arg (v : json) : option string :=
  match v with JStr s => Some s | _ => None end.

Lemma json_is_str_eq v s : json_is_str v s = true -> v = JStr s.
Proof. destruct v; try discriminate. cbn. intros Hs. apply String.eqb_eq in Hs. subst. reflexivity. Qed.

Lemma hbind_hpure_ok {A B} (a : A) (k : A -> H B) s : hbind (hpure (POk a)) k s = k a s.
Proof. reflexivity. Qed.

Lemma hbind_hpure_ok' {A B} (a : A) (k : A -> H B) : hbind (hpure (POk a)) k = k a.
Proof. reflexivity. Qed.

Lemma hbind_hpure_raise {A B} (x : pyexn) (k : A -> H B) s : hbind (hpure (PRaise x)) k s = (PRaise x, s).
Proof. reflexivity. Qed.

Lemma hbind_lift_dns m (k : unit -> H response) r s :
  (forall a s', k a s' = (POk r, s')) ->
  hbind (lift_dns m) k s =
    match m s with
    | (Ok _, s') => (POk r, s')
    | (Err x, s') => (PRaise (PyDns x), s')
    end.
Proof. intros Hk. unfold hbind, lift_dns. destruct (m s) as [[a|x] s']; [apply Hk|reflexivity]. Qed.

Lemma call_with_name_plain f e address v :
  (json_truthy v = false \/ exists t, v = JStr t) ->
  call_with_name f e address v = lift_dns (f e address (name_arg v)).
Proof.
  intros [Hv|[t ->]]; [|reflexivity].
  destruct v; cbn in Hv |- *; rewrite ?Hv; reflexivity.
Qed.

Section WebhookProps.

Variable py_int : string -> option Z.
Variable hmac_sha512_hex : string -> string -> string.
Variable json_loads : string -> option json.

(** The bytes the handler reads from the input stream. *)
Definition body_read (environ : wsgi_environ) : string :=
  read_input (wsgi_input environ) (request_body_size py_int environ).

(** [if self.api_key:] either fails or the signature header matches. *)
Definition signed (hook : webhook) (environ : wsgi_environ) : Prop :=
  match api_key hook with
  | Some k => k = "" \/ hook_signature environ = Some (hmac_sha512_hex k (body_read environ))
  | None => True
  end.

Lemma webhook_call_post hook environ s :
  request_method environ = "POST" -> signed hook environ ->
  webhook_call py_int hmac_sha512_hex json_loads hook environ s =
  webhook_dispatch json_loads hook (body_read environ) s.
Proof.
  intros Hm Hs. unfold webhook_call, signed, body_read in *. rewrite Hm. cbn [negb String.eqb Ascii.eqb Bool.eqb].
  destruct (api_key hook) as [k|]; [|reflexivity].
  destruct (String.eqb_spec k "") as [->|Hk]; [reflexivity|].
  destruct Hs as [Hs|Hs]; [contradiction|]. rewrite Hs, String.eqb_refl. reflexivity.
Qed.

Lemma webhook_dispatch_event hook rb body ev data a v s :
  json_loads rb = Some body ->
  jget body "model" = POk (JStr "ipaddress") ->
  jget body "event" = POk (JStr ev) -> In ev ["created"; "updated"; "deleted"] ->
  jget body "data" = POk data ->
  jget data "address" = POk (JStr a) -> jget data "dns_name" = POk v ->
  webhook_dispatch json_loads hook rb s =
  hbind (call_with_name (if String.eqb ev "deleted" then delete_dns else update_dns)
           (hook_env hook) (hd "" (split_on "/" a)) v)
        (fun _ => hret ("200 OK", "OK")) s.
Proof.
  intros Hj Hmo Hev Hin Hd Ha Hn. unfold webhook_dispatch. rewrite Hj, Hmo, hbind_hpure_ok.
  cbn [json_is_str negb String.eqb Ascii.eqb Bool.eqb].
  rewrite Hev, hbind_hpure_ok, Hd, hbind_hpure_ok.
  destruct Hin as [<-|[<-|[<-|[]]]]; cbn [json_is_str String.eqb Ascii.eqb Bool.eqb orb];
    rewrite Ha, hbind_hpure_ok'; cbn [address_part]; rewrite hbind_hpure_ok', Hn, hbind_hpure_ok';
    reflexivity.
Qed.

Lemma webhook_dispatch_effect hook rb s :
  snd (webhook_dispatch json_loads hook rb s) <> s ->
  exists body ev, json_loads rb = Some body /\
    jget body "model" = POk (JStr "ipaddress") /\
    jget body "event" = POk (JStr ev) /\ In ev ["created"; "updated"; "deleted"].
Proof.
  intros Hne. unfold webhook_dispatch in Hne.
  destruct (json_loads rb) as [body|]; [|cbn in Hne; congruence].
  exists body.
  destruct (jget body "model") as [model|x] eqn:Emo; [|cbn in Hne; congruence].
  rewrite hbind_hpure_ok in Hne.
  destruct (json_is_str model "ipaddress") eqn:Ei; [|cbn in Hne; congruence].
  cbn [negb] in Hne.
  destruct (jget body "event") as [event|x] eqn:Eev; [|cbn in Hne; congruence].
  rewrite hbind_hpure_ok in Hne.
  destruct (jget body "data") as [data|x] eqn:Ed; [|cbn in Hne; congruence].
  rewrite hbind_hpure_ok in Hne.
  apply json_is_str_eq in Ei. subst model.
  destruct (json_is_str event "created") eqn:E1.
  { apply json_is_str_eq in E1. subst. exists "created". repeat split; auto. left; reflexivity. }
  destruct (json_is_str event "updated") eqn:E2.
  { apply json_is_str_eq in E2. subst. exists "updated". repeat split; auto. right; left; reflexivity. }
  destruct (json_is_str event "deleted") eqn:E3.
  { apply json_is_str_eq in E3. subst. exists "deleted". repeat split; auto.
    right; right; left; reflexivity. }
  cbn in Hne. congruence.
Qed.

Lemma webhook_call_body hook env1 env2 s :
  request_method env1 = request_method env2 ->
  hook_signature env1 = hook_signature env2 ->
  body_read env1 = body_read env2 ->
  webhook_call py_int hmac_sha512_hex json_loads hook env1 s =
  webhook_call py_int hmac_sha512_hex json_loads hook env2 s.
Proof.
  intros Hm Hs Hb. unfold webhook_call.
  change (read_input (wsgi_input env1) (request_body_size py_int env1)) with (body_read env1).
  change (read_input (wsgi_input env2) (request_body_size py_int env2)) with (body_read env2).
  rewrite Hm, Hs, Hb. reflexivity.
Qed.

(** X11: a request that is not a [POST] is answered [405]; a [POST] whose
    [X-Hook-Signature] header is missing or differs from the HMAC-SHA512 of
    the body read under a non-empty API key is answered [403]. Neither
    touches DNS. *)
Theorem webhook_rejects_unsigned hook environ s :
  request_method environ <> "POST" \/
  (exists k, api_key hook = Some k /\ k <> "" /\
     hook_signature environ <> Some (hmac_sha512_hex k (body_read environ))) ->
  webhook_call py_int hmac_sha512_hex json_loads hook environ s =
    (POk (if String.eqb (request_method environ) "POST"
          then ("403 Forbidden", "X-Hook-Signature missing or invalid")
          else ("405 Method not allowed", "Method not allowed")), s).
Proof.
  intros Hr. unfold webhook_call.
  destruct (String.eqb_spec (request_method environ) "POST") as [Hm|Hm]; [|reflexivity].
  destruct Hr as [Hr|[k [Hk [Hne Hsig]]]]; [contradiction|].
  cbn [negb]. rewrite Hk. destruct (String.eqb_spec k "") as [Hk0|_]; [contradiction|].
  change (read_input (wsgi_input environ) (request_body_size py_int environ)) with (body_read environ).
  destruct (hook_signature environ) as [sg|]; [|reflexivity].
  destruct (String.eqb_spec sg (hmac_sha512_hex k (body_read environ))) as [->|_];
    [contradiction|reflexivity].
Qed.

(** X12: without a [Content-Length], or with one that is not an integer,
    the handler reads nothing from the input stream: it acts (signature
    check included) as for an empty body. *)
Theorem webhook_without_length_ignores_body hook environ s :
  (content_length environ = None \/
   exists t, content_length environ = Some t /\ py_int t = None) ->
  webhook_call py_int hmac_sha512_hex json_loads hook environ s =
  webhook_call py_int hmac_sha512_hex json_loads hook
    (mk_environ (request_method environ) (content_length environ) "" (hook_signature environ)) s.
Proof.
  intros Hl. apply webhook_call_body; [reflexivity|reflexivity|].
  unfold body_read, request_body_size. cbn [wsgi_input content_length].
  destruct Hl as [->|[t [-> ->]]]; unfold read_input; cbn;
    destruct (wsgi_input environ); reflexivity.
Qed.

(** X13: only a signed [POST] whose body decodes to an object with model
    [ipaddress] and event [created], [updated] or [deleted] can change the
    DNS state; every other request leaves it as it was. *)
Theorem webhook_dns_effect_requires_event hook environ s :
  snd (webhook_call py_int hmac_sha512_hex json_loads hook environ s) <> s ->
  request_method environ = "POST" /\ signed hook environ /\
  exists body ev, json_loads (body_read environ) = Some body /\
    jget body "model" = POk (JStr "ipaddress") /\
    jget body "event" = POk (JStr ev) /\ In ev ["created"; "updated"; "deleted"].
Proof.
  intros Hne. unfold webhook_call in Hne.
  change (read_input (wsgi_input environ) (request_body_size py_int environ))
    with (body_read environ) in Hne.
  destruct (String.eqb_spec (request_method environ) "POST") as [Hm|Hm];
    [|cbn in Hne; congruence].
  cbn [negb] in Hne. split; [exact Hm|]. unfold signed.
  destruct (api_key hook) as [k|].
  - destruct (String.eqb_spec k "") as [Hk|Hk].
    + split; [left; exact Hk|]. apply webhook_dispatch_effect with (1 := Hne).
    + destruct (hook_signature environ) as [sg|]; [|cbn in Hne; congruence].
      destruct (String.eqb_spec sg (hmac_sha512_hex k (body_read environ))) as [Hs|Hs];
        [|cbn in Hne; congruence].
      split; [right; rewrite Hs; reflexivity|]. apply webhook_dispatch_effect with (1 := Hne).
  - split; [exact I|]. apply webhook_dispatch_effect with (1 := Hne).
Qed.

(** X14: a signed [POST] of an [ipaddress] event [created] or [updated]
    ([deleted]) runs [update_dns] ([delete_dns]) on the part of [address]
    before the first [/], with [dns_name] when it is a string and [None]
    when it is falsy; the response is [200 OK] when that call returns, and
    its exception propagates otherwise. *)
Theorem webhook_runs_entry_point hook environ body ev data a v s :
  request_method environ = "POST" -> signed hook environ ->
  json_loads (body_read environ) = Some body ->
  jget body "model" = POk (JStr "ipaddress") ->
  jget body "event" = POk (JStr ev) -> In ev ["created"; "updated"; "deleted"] ->
  jget body "data" = POk data ->
  jget data "address" = POk (JStr a) -> jget data "dns_name" = POk v ->
  (json_truthy v = false \/ exists t, v = JStr t) ->
  webhook_call py_int hmac_sha512_hex json_loads hook environ s =
  match (if String.eqb ev "deleted" then delete_dns else update_dns)
          (hook_env hook) (hd "" (split_on "/" a)) (name_arg v) s with
  | (Ok _, s') => (POk ("200 OK", "OK"), s')
  | (Err x, s') => (PRaise (PyDns x), s')
  end.
Proof.
  intros Hm Hs Hj Hmo Hev Hin Hd Ha Hn Hv.
  rewrite (webhook_call_post _ _ _ Hm Hs).
  rewrite (webhook_dispatch_event _ _ _ _ _ _ _ _ Hj Hmo Hev Hin Hd Ha Hn).
  rewrite call_with_name_plain by exact Hv.
  apply hbind_lift_dns. reflexivity.
Qed.

(** X15: when [dns_name] is a truthy value that is not a string (a number,
    [true], a non-empty list or object), such an event raises without any
    DNS activity: [ValueError] from [dns.name.from_text], or the address
    parse error when the address is not one. *)
Theorem webhook_nonstring_name_raises hook environ body ev data a v s :
  request_method environ = "POST" -> signed hook environ ->
  json_loads (body_read environ) = Some body ->
  jget body "model" = POk (JStr "ipaddress") ->
  jget body "event" = POk (JStr ev) -> In ev ["created"; "updated"; "deleted"] ->
  jget body "data" = POk data ->
  jget data "address" = POk (JStr a) -> jget data "dns_name" = POk v ->
  json_truthy v = true -> (forall t, v <> JStr t) ->
  webhook_call py_int hmac_sha512_hex json_loads hook environ s =
  (PRaise (match from_address (hd "" (split_on "/" a)) with
           | Some _ => PyValueError
           | None => PyDns ValidationFailure
           end), s).
Proof.
  intros Hm Hs Hj Hmo Hev Hin Hd Ha Hn Hv Hns.
  rewrite (webhook_call_post _ _ _ Hm Hs).
  rewrite (webhook_dispatch_event _ _ _ _ _ _ _ _ Hj Hmo Hev Hin Hd Ha Hn).
  assert (Hc : forall f, call_with_name f (hook_env hook) (hd "" (split_on "/" a)) v =
                 hbind (lift_dns (_ <- parse (from_address (hd "" (split_on "/" a))) ;; ret tt))
                       (fun _ => hraise PyValueError)).
  { intros f. unfold call_with_name. destruct v; try (rewrite Hv; reflexivity).
    exfalso. eapply Hns. reflexivity. }
  rewrite Hc. unfold hbind, lift_dns.
  destruct (from_address (hd "" (split_on "/" a))); reflexivity.
Qed.

(** X16: a signed [POST] of an [ipaddress] event other than [created],
    [updated] and [deleted] changes nothing and is answered [200 OK], yet
    still raises [KeyError] when the body has no [data] member. *)
Theorem webhook_other_event_ignored hook environ body ev s :
  request_method environ = "POST" -> signed hook environ ->
  json_loads (body_read environ) = Some body ->
  jget body "model" = POk (JStr "ipaddress") ->
  jget body "event" = POk ev ->
  ~ In ev [JStr "created"; JStr "updated"; JStr "deleted"] ->
  webhook_call py_int hmac_sha512_hex json_loads hook environ s =
  match jget body "data" with
  | POk _ => (POk ("200 OK", "OK"), s)
  | PRaise x => (PRaise x, s)
  end.
Proof.
  intros Hm Hs Hj Hmo Hev Hnin.
  rewrite (webhook_call_post _ _ _ Hm Hs). unfold webhook_dispatch.
  rewrite Hj, Hmo, hbind_hpure_ok. cbn [json_is_str negb String.eqb Ascii.eqb Bool.eqb].
  rewrite Hev, hbind_hpure_ok.
  destruct (jget body "data") as [data|x]; [|reflexivity].
  rewrite hbind_hpure_ok.
  destruct (json_is_str ev "created") eqn:E1;
    [apply json_is_str_eq in E1; subst; exfalso; apply Hnin; left; reflexivity|].
  destruct (json_is_str ev "updated") eqn:E2;
    [apply json_is_str_eq in E2; subst; exfalso; apply Hnin; right; left; reflexivity|].
  destruct (json_is_str ev "deleted") eqn:E3;
    [apply json_is_str_eq in E3; subst; exfalso; apply Hnin; right; right; left; reflexivity|].
  reflexivity.
Qed.

End WebhookProps.

(** *** Concrete requests *)

(** Stand-ins for [int], the HMAC digest and [json.loads] in concrete runs. *)
Definition int_none (_ : string) : option Z := None.
Definition hmac_const (_ _ : string) : string := "c0ffee".
Definition loads_const (v : json) (_ : string) : option json := Some v.

Definition ipaddress_event (ev : string) (address : string) (dns_name : json) : json :=
  JObj [("model", JStr "ipaddress"); ("event", JStr ev);
        ("data", JObj [("address", JStr address); ("dns_name", dns_name)])].

Definition hook_keyed : webhook := mk_webhook env_empty (Some "secret").

Definition post_signed : wsgi_environ := mk_environ "POST" None "" (Some "c0ffee").

Lemma webhook_rejects_unsigned_witness :
  request_method (mk_environ "GET" None "" None) <> "POST" /\
  webhook_call int_none hmac_const (loads_const JNull) hook_keyed
    (mk_environ "GET" None "" None) init_state
  = (POk ("405 Method not allowed", "Method not allowed"), init_state).
Proof.
  assert (Hm : request_method (mk_environ "GET" None "" None) <> "POST") by discriminate.
  split; [exact Hm|].
  exact (webhook_rejects_unsigned int_none hmac_const (loads_const JNull) hook_keyed
           (mk_environ "GET" None "" None) init_state (or_introl Hm)).
Defined.

Lemma webhook_without_length_ignores_body_witness :
  content_length (mk_environ "POST" None "{}" (Some "c0ffee")) = None /\
  webhook_call int_none hmac_const (loads_const JNull) hook_keyed
    (mk_environ "POST" None "{}" (Some "c0ffee")) init_state =
  webhook_call int_none hmac_const (loads_const JNull) hook_keyed
    (mk_environ "POST" None "" (Some "c0ffee")) init_state.
Proof.
  assert (Hl : content_length (mk_environ "POST" None "{}" (Some "c0ffee")) = None)
    by reflexivity.
  split; [exact Hl|].
  exact (webhook_without_length_ignores_body int_none hmac_const (loads_const JNull)
           hook_keyed (mk_environ "POST" None "{}" (Some "c0ffee")) init_state (or_introl Hl)).
Defined.

Lemma webhook_dns_effect_requires_event_witness :
  snd (webhook_call int_none hmac_const
         (loads_const (ipaddress_event "created" "1.2.3.4/24" (JStr "h.example.com.")))
         hook_keyed post_signed init_state) <> init_state /\
  request_method post_signed = "POST".
Proof.
  assert (Hne : snd (webhook_call int_none hmac_const
         (loads_const (ipaddress_event "created" "1.2.3.4/24" (JStr "h.example.com.")))
         hook_keyed post_signed init_state) <> init_state).
  { intro Hc. vm_compute in Hc. discriminate Hc. }
  split; [exact Hne|].
  exact (proj1 (webhook_dns_effect_requires_event _ _ _ _ _ _ Hne)).
Defined.

Lemma webhook_runs_entry_point_witness :
  let body := ipaddress_event "created" "1.2.3.4/24" (JStr "h.example.com.") in
  signed int_none hmac_const hook_keyed post_signed /\
  webhook_call int_none hmac_const (loads_const body) hook_keyed post_signed init_state =
  match update_dns env_empty "1.2.3.4" (Some "h.example.com.") init_state with
  | (Ok _, s') => (POk ("200 OK", "OK"), s')
  | (Err x, s') => (PRaise (PyDns x), s')
  end.
Proof.
  intros body.
  assert (Hs : signed int_none hmac_const hook_keyed post_signed) by (right; reflexivity).
  split; [exact Hs|].
  exact (webhook_runs_entry_point int_none hmac_const (loads_const body) hook_keyed
           post_signed body "created"
           (JObj [("address", JStr "1.2.3.4/24"); ("dns_name", JStr "h.example.com.")])
           "1.2.3.4/24" (JStr "h.example.com.") init_state
           eq_refl Hs eq_refl eq_refl eq_refl (or_introl eq_refl) eq_refl eq_refl eq_refl
           (or_intror (ex_intro _ "h.example.com." eq_refl))).
Defined.

Lemma webhook_nonstring_name_raises_witness :
  let body := ipaddress_event "updated" "1.2.3.4/24" (JInt 7) in
  json_truthy (JInt 7) = true /\
  webhook_call int_none hmac_const (loads_const body) hook_keyed post_signed init_state =
  (PRaise PyValueError, init_state).
Proof.
  intros body.
  assert (Ht : json_truthy (JInt 7) = true) by reflexivity.
  assert (Hns : forall t, JInt 7 <> JStr t) by (intros t Hc; discriminate Hc).
  assert (Hs : signed int_none hmac_const hook_keyed post_signed) by (right; reflexivity).
  split; [exact Ht|].
  rewrite (webhook_nonstring_name_raises int_none hmac_const (loads_const body) hook_keyed
           post_signed body "updated"
           (JObj [("address", JStr "1.2.3.4/24"); ("dns_name", JInt 7)])
           "1.2.3.4/24" (JInt 7) init_state
           eq_refl Hs eq_refl eq_refl eq_refl (or_intror (or_introl eq_refl)) eq_refl eq_refl
           eq_refl Ht Hns).
  vm_compute. reflexivity.
Defined.

Lemma webhook_other_event_ignored_witness :
  let body := ipaddress_event "closed" "1.2.3.4/24" JNull in
  ~ In (JStr "closed") [JStr "created"; JStr "updated"; JStr "deleted"] /\
  webhook_call int_none hmac_const (loads_const body) hook_keyed post_signed init_state =
  (POk ("200 OK", "OK"), init_state).
Proof.
  intros body.
  assert (Hn : ~ In (JStr "closed") [JStr "created"; JStr "updated"; JStr "deleted"]).
  { intros [Hc|[Hc|[Hc|[]]]]; discriminate Hc. }
  assert (Hs : signed int_none hmac_const hook_keyed post_signed) by (right; reflexivity).
  split; [exact Hn|].
  exact (webhook_other_event_ignored int_none hmac_const (loads_const body) hook_keyed
           post_signed body (JStr "closed") init_state eq_refl Hs eq_refl eq_refl eq_refl Hn).
Defined.
